(** * HAR inspector: the extraction, filtering and export engine

    A shallow embedding of [har_inspector/parser.py] (class [HarParser]) and
    the properties its specification states about it.

    The program is Python, so the embedding is dynamically typed where the
    code is: a decoded HAR document is an arbitrary JSON value, every
    [dict.get], [in] and subscript is modelled with the exception it raises
    on a value of the wrong shape, and a method that can raise returns in an
    error monad. *)

From Stdlib Require Import ZArith List String Ascii Bool Lia Permutation.
From Stdlib Require Import SpecFloat DecimalString Sorted.
Import ListNotations.

Set Implicit Arguments.
Local Open Scope string_scope.
Local Open Scope Z_scope.

(** ** Exceptions and the error monad *)

(** The exception classes the engine can raise or let through. [re_error]
    is [re.error]; [JSONDecodeError] and [UnicodeDecodeError] are subclasses
    of [ValueError]; a [ValueError] or [FileNotFoundError] carries its
    message. *)
Inductive exn : Type :=
| FileNotFoundError (msg : string)
| PermissionError
| IsADirectoryError
| ValueError (msg : string)
| TypeError
| AttributeError
| KeyError
| JSONDecodeError
| UnicodeDecodeError
| re_error.

Inductive result (A : Type) : Type :=
| Ok (a : A)
| Raise (e : exn).

Arguments Ok {A} a.
Arguments Raise {A} e.

Definition bind {A B : Type} (m : result A) (k : A -> result B) : result B :=
  match m with
  | Ok a => k a
  | Raise e => Raise e
  end.

Declare Scope py_scope.
Delimit Scope py_scope with py.
Notation "x <- m ;; k" := (bind m (fun x => k))
  (at level 61, m at next level, right associativity) : py_scope.
Local Open Scope py_scope.

Definition returns {A : Type} (m : result A) : bool :=
  match m with Ok _ => true | Raise _ => false end.

(** ** Python values *)

(** What [json.load] produces: [None], [bool], [int], [float], [str],
    [list] and [dict] with [str] keys. A [dict] is the list of its items in
    insertion order; a decoded object has each key once. *)
#[local] Unset Elimination Schemes.
Inductive json : Type :=
| JNull
| JBool (b : bool)
| JInt (n : Z)
| JFloat (f : spec_float)
| JStr (s : string)
| JList (items : list json)
| JDict (items : list (string * json)).
#[local] Set Elimination Schemes.

(** A [str] or [bytes] object. [urlparse] answers in the type of its
    argument, and decodes a falsy argument that is not a [str] as bytes. *)
Inductive text : Type :=
| Str (s : string)
| Bytes (s : string).

Definition text_eqb (a b : text) : bool :=
  match a, b with
  | Str x, Str y => String.eqb x y
  | Bytes x, Bytes y => String.eqb x y
  | _, _ => false
  end.

(** *** Strings *)

Fixpoint str_find_from (i : nat) (c : ascii) (s : string) : option nat :=
  match s with
  | EmptyString => None
  | String a s' => if Ascii.eqb a c then Some i else str_find_from (S i) c s'
  end.

(** [s.find(c)] for a one-character [c]; [None] is Python's [-1]. *)
Definition str_find (c : ascii) (s : string) : option nat := str_find_from 0 c s.

Fixpoint str_has (c : ascii) (s : string) : bool :=
  match s with
  | EmptyString => false
  | String a s' => Ascii.eqb a c || str_has c s'
  end.

Fixpoint str_take (n : nat) (s : string) : string :=
  match n, s with
  | O, _ => EmptyString
  | S n', String a s' => String a (str_take n' s')
  | S _, EmptyString => EmptyString
  end.

Fixpoint str_drop (n : nat) (s : string) : string :=
  match n, s with
  | O, _ => s
  | S n', String _ s' => str_drop n' s'
  | S _, EmptyString => EmptyString
  end.

(** [needle in hay] on two strings. *)
Fixpoint str_contains (needle hay : string) : bool :=
  String.prefix needle hay ||
  match hay with
  | EmptyString => false
  | String _ hay' => str_contains needle hay'
  end.

Fixpoint str_forallb (p : ascii -> bool) (s : string) : bool :=
  match s with
  | EmptyString => true
  | String a s' => p a && str_forallb p s'
  end.

Fixpoint str_map (f : ascii -> ascii) (s : string) : string :=
  match s with
  | EmptyString => EmptyString
  | String a s' => String (f a) (str_map f s')
  end.

Fixpoint str_filter (p : ascii -> bool) (s : string) : string :=
  match s with
  | EmptyString => EmptyString
  | String a s' => if p a then String a (str_filter p s') else str_filter p s'
  end.

Definition is_upper (c : ascii) : bool :=
  let n := nat_of_ascii c in (Nat.leb 65 n && Nat.leb n 90)%bool.
Definition is_lower (c : ascii) : bool :=
  let n := nat_of_ascii c in (Nat.leb 97 n && Nat.leb n 122)%bool.
Definition is_digit (c : ascii) : bool :=
  let n := nat_of_ascii c in (Nat.leb 48 n && Nat.leb n 57)%bool.

Definition ascii_lower (c : ascii) : ascii :=
  if is_upper c then ascii_of_nat (nat_of_ascii c + 32) else c.

(** [s.lower()] on ASCII letters. *)
Definition str_lower (s : string) : string := str_map ascii_lower s.

(** The characters of a string as one-character strings: what iterating a
    [str] yields. *)
Fixpoint str_chars (s : string) : list string :=
  match s with
  | EmptyString => []
  | String a s' => String a EmptyString :: str_chars s'
  end.

(** [sep.join(parts)]. *)
Fixpoint str_join (sep : string) (parts : list string) : string :=
  match parts with
  | [] => ""
  | [p] => p
  | p :: rest => p ++ sep ++ str_join sep rest
  end.

(** *** Truth, equality, membership *)

Definition float_is_zero (f : spec_float) : bool :=
  match f with S754_zero _ => true | _ => false end.

(** [bool(v)]. *)
Definition truthy (v : json) : bool :=
  match v with
  | JNull => false
  | JBool b => b
  | JInt n => negb (n =? 0)
  | JFloat f => negb (float_is_zero f)
  | JStr s => negb (String.eqb s "")
  | JList l => match l with [] => false | _ => true end
  | JDict l => match l with [] => false | _ => true end
  end.

(** Truth of an optional [str] argument: [None] and [''] are false. *)
Definition str_arg_active (a : option string) : bool :=
  match a with
  | None => false
  | Some s => negb (String.eqb s "")
  end.

(** Truth of an optional [int] argument: [None] and [0] are false. *)
Definition int_arg_active (a : option Z) : bool :=
  match a with
  | None => false
  | Some n => negb (n =? 0)
  end.

Definition signed (neg : bool) (m : positive) : Z :=
  if neg then Z.neg m else Z.pos m.

(** [f == n] for a float and an int: Python compares the exact values. *)
Definition float_eq_int (f : spec_float) (n : Z) : bool :=
  match f with
  | S754_zero _ => n =? 0
  | S754_finite neg m e =>
      if 0 <=? e then signed neg m * 2 ^ e =? n
      else signed neg m =? n * 2 ^ (- e)
  | S754_infinity _ => false
  | S754_nan => false
  end.

(** [v == n] for a decoded value and an int; [True == 1] and [200.0 == 200]
    hold in Python, and a value of another type is unequal to every int. *)
Definition eq_int (v : json) (n : Z) : bool :=
  match v with
  | JBool b => (if b then 1 else 0) =? n
  | JInt k => k =? n
  | JFloat f => float_eq_int f n
  | _ => false
  end.

(** [v == s] for a decoded value and a [str]. *)
Definition eq_str (v : json) (s : string) : bool :=
  match v with
  | JStr x => String.eqb x s
  | _ => false
  end.

(** [t == s] for a [str] or [bytes] object and a [str]: bytes never equal a
    [str]. *)
Definition text_eq_str (t : text) (s : string) : bool :=
  match t with
  | Str x => String.eqb x s
  | Bytes _ => false
  end.

Fixpoint assoc (k : string) (items : list (string * json)) : option json :=
  match items with
  | [] => None
  | (k', v) :: rest => if String.eqb k' k then Some v else assoc k rest
  end.

(** [k in v] for a [str] key [k]: key membership on a [dict], element
    membership on a [list], substring on a [str], [TypeError] otherwise. *)
Definition contains (k : string) (v : json) : result bool :=
  match v with
  | JDict items => Ok (match assoc k items with Some _ => true | None => false end)
  | JList l => Ok (existsb (fun x => eq_str x k) l)
  | JStr s => Ok (str_contains k s)
  | _ => Raise TypeError
  end.

(** [v[k]] for a [str] key [k]. *)
Definition getitem (v : json) (k : string) : result json :=
  match v with
  | JDict items =>
      match assoc k items with
      | Some x => Ok x
      | None => Raise KeyError
      end
  | _ => Raise TypeError
  end.

(** [v.get(k, default)]: only a [dict] has the method. *)
Definition get (v : json) (k : string) (default : json) : result json :=
  match v with
  | JDict items =>
      Ok (match assoc k items with Some x => x | None => default end)
  | _ => Raise AttributeError
  end.

(** The elements a [for] loop over [v] visits. *)
Definition iter (v : json) : result (list json) :=
  match v with
  | JList l => Ok l
  | JDict items => Ok (map (fun kv => JStr (fst kv)) items)
  | JStr s => Ok (map JStr (str_chars s))
  | _ => Raise TypeError
  end.

(** ** [urllib.parse.urlparse]

    The standard library's function, as CPython 3.10 defines it on [str]
    input: [urlsplit] followed by the split of the last path segment's
    parameters. Later releases also strip leading control characters and
    validate a bracketed host, so they reject more URLs, never fewer. The
    NFKC check of [_checknetloc] only concerns an authority with non-ASCII
    characters and is left out. *)
Module urllib.

Record ParseResult : Type := mkParseResult {
  scheme : text;
  netloc : text;
  path : text;
  params : text;
  query : text;
  fragment : text
}.

Definition ch (n : nat) : ascii := ascii_of_nat n.

Definition colon := ch 58.
Definition slash := ch 47.
Definition question := ch 63.
Definition hash := ch 35.
Definition semicolon := ch 59.
Definition lbracket := ch 91.
Definition rbracket := ch 93.

(** [scheme_chars]: letters, digits and [+-.]. *)
Definition scheme_char (c : ascii) : bool :=
  is_lower c || is_upper c || is_digit c ||
  Ascii.eqb c (ch 43) || Ascii.eqb c (ch 45) || Ascii.eqb c (ch 46).

(** [_UNSAFE_URL_BYTES_TO_REMOVE]: tab, carriage return, line feed. *)
Definition unsafe_byte (c : ascii) : bool :=
  Ascii.eqb c (ch 9) || Ascii.eqb c (ch 13) || Ascii.eqb c (ch 10).

(** The prefix of [s] before the first character satisfying [stop], and
    the rest starting at that character. *)
Fixpoint span_until (stop : ascii -> bool) (s : string) : string * string :=
  match s with
  | EmptyString => (EmptyString, EmptyString)
  | String a s' =>
      if stop a then (EmptyString, s)
      else let (p, r) := span_until stop s' in (String a p, r)
  end.

(** [s.split(c, 1)] when [c] occurs in [s]: the text before the first [c]
    and the text after it. *)
Definition split_once (c : ascii) (s : string) : string * string :=
  let (p, r) := span_until (Ascii.eqb c) s in (p, str_drop 1 r).

Definition netloc_delim (c : ascii) : bool :=
  Ascii.eqb c slash || Ascii.eqb c question || Ascii.eqb c hash.

(** [_splitnetloc(url, 2)]: the authority runs from index 2 to the first of
    [/], [?], [#]. *)
Definition splitnetloc (url : string) : string * string :=
  span_until netloc_delim (str_drop 2 url).

Definition all_scheme_chars (s : string) : bool := str_forallb scheme_char s.

(** The scheme split of [urlsplit]: a colon at index [i > 0] preceded only
    by scheme characters. *)
Definition split_scheme (url : string) : string * string :=
  match str_find colon url with
  | Some (S i) =>
      let pre := str_take (S i) url in
      if all_scheme_chars pre then (str_lower pre, str_drop (S (S i)) url)
      else ("", url)
  | _ => ("", url)
  end.

Definition urlsplit (url0 : string)
  : result (string * string * string * string * string) :=
  let url := str_filter (fun c => negb (unsafe_byte c)) url0 in
  let (scheme, url) := split_scheme url in
  r <- (if String.eqb (str_take 2 url) "//" then
          let (netloc, rest) := splitnetloc url in
          if (str_has lbracket netloc && negb (str_has rbracket netloc)) ||
             (str_has rbracket netloc && negb (str_has lbracket netloc))
          then Raise (ValueError "Invalid IPv6 URL")
          else Ok (netloc, rest)
        else Ok ("", url)) ;;
  let (netloc, url) := r in
  let (url, fragment) :=
    if str_has hash url then split_once hash url else (url, "") in
  let (url, query) :=
    if str_has question url then split_once question url else (url, "") in
  Ok (scheme, netloc, url, query, fragment).

Definition uses_params : list string :=
  [""; "ftp"; "hdl"; "prospero"; "http"; "imap"; "https"; "shttp"; "rtsp";
   "rtspu"; "sip"; "sips"; "mms"; "sftp"; "tel"].

(** The index of the last [c] in [s]. *)
Fixpoint str_rfind_from (i : nat) (c : ascii) (s : string) : option nat :=
  match s with
  | EmptyString => None
  | String a s' =>
      match str_rfind_from (S i) c s' with
      | Some j => Some j
      | None => if Ascii.eqb a c then Some i else None
      end
  end.

(** [_splitparams(url)], called when [;] occurs in [url]. *)
Definition splitparams (url : string) : string * string :=
  match str_rfind_from 0 slash url with
  | Some j =>
      let tail := str_drop j url in
      if str_has semicolon tail then
        let (seg, prm) := split_once semicolon tail in
        (str_take j url ++ seg, prm)
      else (url, "")
  | None => split_once semicolon url
  end.

Definition urlparse_str (url : string) : result ParseResult :=
  r <- urlsplit url ;;
  let '(scheme, netloc, url, query, fragment) := r in
  let (url, params) :=
    if existsb (String.eqb scheme) uses_params && str_has semicolon url
    then splitparams url else (url, "") in
  Ok (mkParseResult (Str scheme) (Str netloc) (Str url) (Str params)
                    (Str query) (Str fragment)).

(** [urlparse(url)] on a decoded value. [_coerce_args] passes a [str]
    through; of a value that is not a [str] it takes the empty string when
    the value is falsy, and answers in bytes, and calls the missing
    [decode] method of a truthy one. *)
Definition urlparse (url : json) : result ParseResult :=
  match url with
  | JStr s => urlparse_str s
  | _ =>
      if truthy url then Raise AttributeError
      else Ok (mkParseResult (Bytes "") (Bytes "") (Bytes "") (Bytes "")
                             (Bytes "") (Bytes ""))
  end.

End urllib.

(** ** Endpoint records *)

(** A [dict] whose keys are decoded scalars, in insertion order. *)
Definition pydict : Type := list (json * json).

(** The dictionary [get_endpoints] builds for one entry, field by field. *)
Record EndpointRecord : Type := mkEndpoint {
  url : json;
  method : json;
  protocol : text;
  domain : text;
  path : text;
  query_params : pydict;
  headers : pydict;
  post_data : json;
  status_code : json;
  response_size : json;
  time : json
}.

(** ** The libraries the engine calls

    [json], [re] and the built-in [str] are not part of the repository. The
    engine is verified against their interface: a theorem below holds for
    every decoder, every pattern language and every rendering. *)
Class PyLib : Type := {
  (** [json.loads] on a [str]; [None] stands for [JSONDecodeError]. *)
  json_loads : string -> option json;
  (** Compiled pattern objects. *)
  pattern : Type;
  (** [re.compile]; [None] stands for [re.error]. *)
  re_compile : string -> option pattern;
  (** Whether [pattern.search] finds a match anywhere in the string. *)
  pattern_search : pattern -> string -> bool;
  (** [str(v)] of a [float], [list] or [dict]. *)
  str_other : json -> string;
  (** [str(b)] of a [bytes] object. *)
  str_bytes : string -> string;
  (** The text [json.dump(endpoints, f, indent=2)] writes, or the exception
      it raises. *)
  json_dump : list EndpointRecord -> result string
}.

(** *** Dictionary keys *)

(** Only scalars hash; a [list] or [dict] key raises [TypeError]. *)
Definition hashable (k : json) : bool :=
  match k with
  | JList _ | JDict _ => false
  | _ => true
  end.

(** A number as [m * 2 ^ e]. *)
Definition dyadic (k : json) : option (Z * Z) :=
  match k with
  | JBool b => Some (if b then 1 else 0, 0)
  | JInt n => Some (n, 0)
  | JFloat (S754_zero _) => Some (0, 0)
  | JFloat (S754_finite neg m e) => Some (signed neg m, e)
  | _ => None
  end.

Definition dyadic_eqb (a b : Z * Z) : bool :=
  let (m1, e1) := a in
  let (m2, e2) := b in
  let e := Z.min e1 e2 in
  m1 * 2 ^ (e1 - e) =? m2 * 2 ^ (e2 - e).

(** Whether two scalar keys name the same slot of a [dict]: equal numbers
    share a slot whatever their type ([1], [1.0] and [True]), and so do two
    decoded [NaN], which are one object. *)
Definition key_eqb (a b : json) : bool :=
  match dyadic a, dyadic b with
  | Some x, Some y => dyadic_eqb x y
  | None, None =>
      match a, b with
      | JNull, JNull => true
      | JStr x, JStr y => String.eqb x y
      | JFloat S754_nan, JFloat S754_nan => true
      | JFloat (S754_infinity x), JFloat (S754_infinity y) => Bool.eqb x y
      | _, _ => false
      end
  | _, _ => false
  end.

Fixpoint dict_update (d : pydict) (k v : json) : pydict :=
  match d with
  | [] => [(k, v)]
  | (k', v') :: rest =>
      if key_eqb k' k then (k', v) :: rest else (k', v') :: dict_update rest k v
  end.

(** [d[k] = v]: a later value replaces an earlier one under the same key. *)
Definition setitem (d : pydict) (k v : json) : result pydict :=
  if hashable k then Ok (dict_update d k v) else Raise TypeError.

(** ** Files *)

(** What a path names: a text file, a file whose bytes are not UTF-8, a
    file the process may not open, or a directory. *)
Inductive file : Type :=
| Regular (content : string)
| Undecodable
| NoPermission
| Directory.

(** The file store: a path names nothing or one file. *)
Definition filesystem : Type := string -> option file.

Definition fs_write (fs : filesystem) (name content : string) : filesystem :=
  fun p => if String.eqb p name then Some (Regular content) else fs p.

(** [open(name, 'r', encoding='utf-8')] followed by reading all of it. *)
Definition read_text (fs : filesystem) (name : string) : result string :=
  match fs name with
  | None => Raise (FileNotFoundError "No such file or directory")
  | Some NoPermission => Raise PermissionError
  | Some Directory => Raise IsADirectoryError
  | Some Undecodable => Raise UnicodeDecodeError
  | Some (Regular content) => Ok content
  end.

(** [open(name, 'w')]: the file is created, or emptied when it exists. *)
Definition open_w (fs : filesystem) (name : string) : result filesystem :=
  match fs name with
  | Some NoPermission => Raise PermissionError
  | Some Directory => Raise IsADirectoryError
  | _ => Ok (fs_write fs name "")
  end.

(** ** The parser *)

Record HarParser : Type := mkHarParser {
  har_file_path : string;
  har_data : json
}.

Section Engine.

Context {lib : PyLib}.

(** [json.loads(v)]: a value that is not a [str] raises [TypeError]. *)
Definition loads (v : json) : result json :=
  match v with
  | JStr s =>
      match json_loads s with
      | Some x => Ok x
      | None => Raise JSONDecodeError
      end
  | _ => Raise TypeError
  end.

(** [re.search(pat, t)] as a truth value: the pattern is compiled first,
    and a [str] pattern does not search bytes. *)
Definition re_search (pat : string) (t : text) : result bool :=
  match re_compile pat with
  | None => Raise re_error
  | Some r =>
      match t with
      | Str s => Ok (pattern_search r s)
      | Bytes _ => Raise TypeError
      end
  end.

(** *** Loading *)

Definition _load_har_file (fs : filesystem) (har_file_path : string)
  : result json :=
  match (content <- read_text fs har_file_path ;; loads (JStr content)) with
  | Raise JSONDecodeError =>
      Raise (ValueError ("Invalid HAR file format: " ++ har_file_path))
  | Raise (FileNotFoundError _) =>
      Raise (FileNotFoundError ("HAR file not found: " ++ har_file_path))
  | r => r
  end.

(** [HarParser(har_file_path)]. *)
Definition __init__ (fs : filesystem) (har_file_path : string) : result HarParser :=
  data <- _load_har_file fs har_file_path ;;
  Ok (mkHarParser har_file_path data).

(** *** Extraction *)

(** The loop [for item in items: d[item.get('name', '')] =
    item.get('value', '')] over the name and value pairs of a request. *)
Fixpoint flatten (d : pydict) (items : list json) : result pydict :=
  match items with
  | [] => Ok d
  | item :: rest =>
      v <- get item "value" (JStr "") ;;
      k <- get item "name" (JStr "") ;;
      d' <- setitem d k v ;;
      flatten d' rest
  end.

(** Lines 95 to 103: the body text, decoded when it is JSON. *)
Definition extract_post_data (request : json) : result json :=
  present <- contains "postData" request ;;
  if present then
    pd <- getitem request "postData" ;;
    raw <- get pd "text" (JStr "") ;;
    match loads raw with
    | Ok v => Ok v
    | Raise JSONDecodeError => Ok raw
    | Raise TypeError => Ok raw
    | Raise e => Raise e
    end
  else Ok JNull.

(** [domain and netloc != domain]. *)
Definition domain_mismatch (domain : option string) (netloc : text) : bool :=
  match domain with
  | Some d => negb (String.eqb d "") && negb (text_eq_str netloc d)
  | None => false
  end.

(** [method and request_method != method]. *)
Definition method_mismatch (method : option string) (request_method : json)
  : bool :=
  match method with
  | Some m => negb (String.eqb m "") && negb (eq_str request_method m)
  | None => false
  end.

(** [status_code and response_status != status_code]. *)
Definition status_mismatch (status_code : option Z) (response_status : json)
  : bool :=
  match status_code with
  | Some s => negb (s =? 0) && negb (eq_int response_status s)
  | None => false
  end.

(** [path_pattern and not re.search(path_pattern, path)]. *)
Definition pattern_mismatch (path_pattern : option string) (p : text)
  : result bool :=
  match path_pattern with
  | Some pat =>
      if String.eqb pat "" then Ok false
      else found <- re_search pat p ;; Ok (negb found)
  | None => Ok false
  end.

(** Lines 84 to 117: the record of an entry that no filter rejected. *)
Definition assemble (entry request response url : json)
    (parsed_url : urllib.ParseResult) (request_method response_status : json)
  : result EndpointRecord :=
  qs <- get request "queryString" (JList []) ;;
  params <- iter qs ;;
  query_params <- flatten [] params ;;
  hs <- get request "headers" (JList []) ;;
  header_items <- iter hs ;;
  headers <- flatten [] header_items ;;
  post_data <- extract_post_data request ;;
  response_size <- get response "bodySize" (JInt 0) ;;
  time <- get entry "time" (JInt 0) ;;
  Ok (mkEndpoint url request_method
        (urllib.scheme parsed_url) (urllib.netloc parsed_url)
        (urllib.path parsed_url)
        query_params headers post_data
        response_status response_size time).

(** One turn of the loop of [get_endpoints]: [None] is [continue], [Some]
    the record appended. *)
Definition visit (domain method : option string) (status_code : option Z)
    (path_pattern : option string) (entry : json)
  : result (option EndpointRecord) :=
  request <- get entry "request" (JDict []) ;;
  response <- get entry "response" (JDict []) ;;
  url <- get request "url" (JStr "") ;;
  parsed_url <- urllib.urlparse url ;;
  if domain_mismatch domain (urllib.netloc parsed_url) then Ok None else
  request_method <- get request "method" (JStr "") ;;
  if method_mismatch method request_method then Ok None else
  response_status <- get response "status" (JInt 0) ;;
  if status_mismatch status_code response_status then Ok None else
  skip <- pattern_mismatch path_pattern (urllib.path parsed_url) ;;
  if skip then Ok None else
  endpoint_info <- assemble entry request response url parsed_url
                     request_method response_status ;;
  Ok (Some endpoint_info).

(** The loop itself, with the list [endpoints] built so far; [body] is one
    turn of it. *)
Fixpoint for_each (body : json -> result (option EndpointRecord))
    (endpoints : list EndpointRecord) (entries : list json)
  : result (list EndpointRecord) :=
  match entries with
  | [] => Ok endpoints
  | entry :: rest =>
      r <- body entry ;;
      for_each body
        (match r with
         | Some endpoint_info => endpoints ++ [endpoint_info]
         | None => endpoints
         end) rest
  end.

(** The test of line 54, ['log' not in har_data or 'entries' not in
    har_data['log']], with the short circuit of [or]. *)
Definition lacks_entries (har_data : json) : result bool :=
  has_log <- contains "log" har_data ;;
  if negb has_log then Ok true
  else
    log <- getitem har_data "log" ;;
    has_entries <- contains "entries" log ;;
    Ok (negb has_entries).

(** [self.har_data['log']['entries']]. *)
Definition log_entries (har_data : json) : result json :=
  log <- getitem har_data "log" ;;
  getitem log "entries".

Definition get_endpoints (self : HarParser) (domain method : option string)
    (status_code : option Z) (path_pattern : option string)
  : result (list EndpointRecord) :=
  missing <- lacks_entries (har_data self) ;;
  if missing then Ok []
  else
    entries <- log_entries (har_data self) ;;
    items <- iter entries ;;
    for_each (visit domain method status_code path_pattern) [] items.

(** *** Domains *)

(** [domains.add(x)] on a set kept as a list without repetitions. *)
Definition set_add (x : text) (domains : list text) : list text :=
  if existsb (text_eqb x) domains then domains else domains ++ [x].

Fixpoint collect_domains (domains : list text) (entries : list json)
  : result (list text) :=
  match entries with
  | [] => Ok domains
  | entry :: rest =>
      request <- get entry "request" (JDict []) ;;
      url <- get request "url" (JStr "") ;;
      parsed_url <- urllib.urlparse url ;;
      collect_domains (set_add (urllib.netloc parsed_url) domains) rest
  end.

Definition get_unique_domains (self : HarParser) : result (list text) :=
  has_log <- contains "log" (har_data self) ;;
  has_entries <-
    (if has_log then
       log <- getitem (har_data self) "log" ;; contains "entries" log
     else Ok false) ;;
  if has_entries then
    entries <- log_entries (har_data self) ;;
    items <- iter entries ;;
    collect_domains [] items
  else Ok [].

(** *** API endpoints *)

Definition default_api_patterns : list string :=
  ["/api/"; "/v\d+/"; "/rest/"; "/graphql"; "/gql"; "\.json$"].

Definition get_api_endpoints (self : HarParser)
    (api_patterns : option (list string)) : result (list EndpointRecord) :=
  let api_patterns :=
    match api_patterns with
    | None => default_api_patterns
    | Some l => l
    end in
  let pat := str_join "|" api_patterns in
  get_endpoints self None None None (Some pat).

End Engine.

(** ** [os.path.splitext] *)
Module os_path.

Definition dot := urllib.ch 46.

(** [posixpath.splitext]: the extension starts at the last dot of the last
    component, unless only dots precede it there. *)
Definition splitext (p : string) : string * string :=
  let start :=
    match urllib.str_rfind_from 0 urllib.slash p with
    | Some j => S j
    | None => O
    end in
  match urllib.str_rfind_from 0 dot p with
  | Some d =>
      if Nat.leb start d &&
         negb (str_forallb (Ascii.eqb dot) (str_take (d - start) (str_drop start p)))
      then (str_take d p, str_drop d p)
      else (p, "")
  | None => (p, "")
  end.

End os_path.

(** ** [csv.DictWriter]

    The writer of the standard library with the default dialect: comma,
    double quote, doubled quotes inside a quoted field, minimal quoting,
    lines ended by carriage return and line feed. *)
Module csv.

Definition quotechar := urllib.ch 34.
Definition delimiter := urllib.ch 44.
Definition cr := urllib.ch 13.
Definition lf := urllib.ch 10.
Definition lineterminator : string := String cr (String lf EmptyString).

(** A value written to a cell: a decoded value or a URL component. *)
Inductive cell : Type :=
| CJson (v : json)
| CText (t : text).

Definition special (c : ascii) : bool :=
  Ascii.eqb c delimiter || Ascii.eqb c quotechar ||
  Ascii.eqb c cr || Ascii.eqb c lf.

Fixpoint double_quotes (s : string) : string :=
  match s with
  | EmptyString => EmptyString
  | String a s' =>
      if Ascii.eqb a quotechar then String a (String a (double_quotes s'))
      else String a (double_quotes s')
  end.

(** A field as it is written: quoted when it holds a special character. *)
Definition quote_field (s : string) : string :=
  if str_forallb (fun c => negb (special c)) s then s
  else String quotechar (double_quotes s ++ String quotechar EmptyString).

Definition format_row (fields : list string) : string :=
  str_join (String delimiter EmptyString) (map quote_field fields)
  ++ lineterminator.

Section Writer.

Context {lib : PyLib}.

Definition str_of_int (n : Z) : string := NilZero.string_of_int (Z.to_int n).

(** The text of a cell: [None] is written empty, a [str] as it is, any
    other value through [str]. *)
Definition cell_text (c : cell) : string :=
  match c with
  | CJson JNull => ""
  | CJson (JStr s) => s
  | CJson (JBool b) => if b then "True" else "False"
  | CJson (JInt n) => str_of_int n
  | CJson v => str_other v
  | CText (Str s) => s
  | CText (Bytes b) => str_bytes b
  end.

Fixpoint row_get (key : string) (rowdict : list (string * cell)) : cell :=
  match rowdict with
  | [] => CJson JNull
  | (k, v) :: rest => if String.eqb k key then v else row_get key rest
  end.

(** [DictWriter.writerow]: the cells of the row under the field names, in
    their order. *)
Definition writerow (fieldnames : list string) (rowdict : list (string * cell))
  : string :=
  format_row (map (fun key => cell_text (row_get key rowdict)) fieldnames).

(** [DictWriter.writeheader]: the row that maps each field name to
    itself. *)
Definition writeheader (fieldnames : list string) : string :=
  writerow fieldnames (map (fun k => (k, CJson (JStr k))) fieldnames).

Definition writerows (fieldnames : list string)
    (rows : list (list (string * cell))) : string :=
  String.concat "" (map (writerow fieldnames) rows).

End Writer.

End csv.

Section Serializer.

Context {lib : PyLib}.

(** The dictionary [flat_ep] of lines 187 to 196. *)
Definition flat_ep (ep : EndpointRecord) : list (string * csv.cell) :=
  [("url", csv.CJson (url ep));
   ("method", csv.CJson (method ep));
   ("protocol", csv.CText (protocol ep));
   ("domain", csv.CText (domain ep));
   ("path", csv.CText (path ep));
   ("status_code", csv.CJson (status_code ep));
   ("response_size", csv.CJson (response_size ep));
   ("time", csv.CJson (time ep))].

Definition export_endpoints (fs : filesystem) (endpoints : list EndpointRecord)
    (output_file : string) : result filesystem :=
  let file_ext := str_lower (snd (os_path.splitext output_file)) in
  if String.eqb file_ext ".json" then
    fs <- open_w fs output_file ;;
    out <- json_dump endpoints ;;
    Ok (fs_write fs output_file out)
  else if String.eqb file_ext ".csv" then
    match endpoints with
    | [] =>
        fs <- open_w fs output_file ;;
        Ok (fs_write fs output_file "No endpoints found")
    | _ :: _ =>
        let flattened := map flat_ep endpoints in
        fs <- open_w fs output_file ;;
        let fieldnames :=
          match flattened with
          | first :: _ => map fst first
          | [] => []
          end in
        Ok (fs_write fs output_file
              (csv.writeheader fieldnames ++ csv.writerows fieldnames flattened))
    end
  else Raise (ValueError ("Unsupported file format: " ++ file_ext)).

End Serializer.

(** ** Reading a document

    The notions the properties are stated with: the transaction entries of
    a document, the fields of an entry the filters look at, and the filters
    as predicates on entries and on records. *)

(** [v[k]] when [v] is a dictionary with the key, [default] otherwise. *)
Definition field (v : json) (k : string) (default : json) : json :=
  match v with
  | JDict items =>
      match assoc k items with
      | Some x => x
      | None => default
      end
  | _ => default
  end.

Definition has_key (k : string) (v : json) : bool :=
  match v with
  | JDict items => match assoc k items with Some _ => true | None => false end
  | _ => false
  end.

(** The decoded values that are no container: [None], booleans and
    numbers. The operator [in] raises [TypeError] on them. *)
Definition not_container (v : json) : bool :=
  match v with
  | JNull | JBool _ | JInt _ | JFloat _ => true
  | JStr _ | JList _ | JDict _ => false
  end.

(** The transaction entries: the elements of the list under [log] and
    [entries], none when the document has no such list. *)
Definition transactions (har_data : json) : list json :=
  match field (field har_data "log" JNull) "entries" JNull with
  | JList entries => entries
  | _ => []
  end.

Definition entry_url (entry : json) : json :=
  field (field entry "request" (JDict [])) "url" (JStr "").

Definition entry_method (entry : json) : json :=
  field (field entry "request" (JDict [])) "method" (JStr "").

Definition entry_status (entry : json) : json :=
  field (field entry "response" (JDict [])) "status" (JInt 0).

(** The authority and the path of the entry's URL, empty when [urlparse]
    rejects it. *)
Definition entry_netloc (entry : json) : text :=
  match urllib.urlparse (entry_url entry) with
  | Ok parsed_url => urllib.netloc parsed_url
  | Raise _ => Str ""
  end.

Definition entry_path (entry : json) : text :=
  match urllib.urlparse (entry_url entry) with
  | Ok parsed_url => urllib.path parsed_url
  | Raise _ => Str ""
  end.

Section Filters.

Context {lib : PyLib}.

(** The path filter as a predicate: it accepts when it is inactive or the
    search finds a match. *)
Definition pattern_accepts (path_pattern : option string) (p : text) : bool :=
  match pattern_mismatch path_pattern p with
  | Ok skip => negb skip
  | Raise _ => false
  end.

(** An entry passes the filters when none of the four active tests
    rejects it. *)
Definition passes (domain method : option string) (status_code : option Z)
    (path_pattern : option string) (entry : json) : bool :=
  negb (domain_mismatch domain (entry_netloc entry)) &&
  negb (method_mismatch method (entry_method entry)) &&
  negb (status_mismatch status_code (entry_status entry)) &&
  pattern_accepts path_pattern (entry_path entry).

(** The same four tests on the fields of a record. *)
Definition record_passes (d m : option string) (s : option Z)
    (p : option string) (r : EndpointRecord) : bool :=
  negb (domain_mismatch d (domain r)) &&
  negb (method_mismatch m (method r)) &&
  negb (status_mismatch s (status_code r)) &&
  pattern_accepts p (path r).

(** The record of an entry: what the loop appends for it when no filter
    is set. *)
Definition record_of (entry : json) (r : EndpointRecord) : Prop :=
  visit None None None None entry = Ok (Some r).

(** The shape of a HAR document: an object whose [log], when present, is
    an object whose [entries], when present, is a list. *)
Definition har_shaped (har_data : json) : bool :=
  match har_data with
  | JDict items =>
      match assoc "log" items with
      | None => true
      | Some (JDict litems) =>
          match assoc "entries" litems with
          | None => true
          | Some (JList _) => true
          | Some _ => false
          end
      | Some _ => false
      end
  | _ => false
  end.

End Filters.

(** ** The errors of the specification

    The specification names the loader's errors [SourceNotFound] and
    [InvalidFormat]; in the code they are [FileNotFoundError] and
    [ValueError], subclasses included. *)
Definition is_source_not_found (e : exn) : bool :=
  match e with
  | FileNotFoundError _ => true
  | _ => false
  end.

Definition is_invalid_format (e : exn) : bool :=
  match e with
  | ValueError _ | JSONDecodeError | UnicodeDecodeError => true
  | _ => false
  end.

(** The call raised an exception of the given kind. *)
Definition raises {A : Type} (kind : exn -> bool) (m : result A) : Prop :=
  exists e, m = Raise e /\ kind e = true.

(** The header row of the CSV export. *)
Definition csv_header : string :=
  "url,method,protocol,domain,path,status_code,response_size,time".

(** ** The filters in another order

    The code evaluates the four tests in one order. To state that the
    order does not matter, the loop is written once more with the order as
    a parameter: each test keeps the lookup the code makes for it, and the
    tests short-circuit as the [continue] statements do. *)
Inductive test : Type :=
| ByDomain
| ByMethod
| ByStatus
| ByPattern.

(** The order of the code, lines 67 to 82. *)
Definition source_order : list test := [ByDomain; ByMethod; ByStatus; ByPattern].

Section Ordered.

Context {lib : PyLib}.

(** One test of the loop; [true] means the entry is skipped. *)
Definition run_test (domain method : option string) (status_code : option Z)
    (path_pattern : option string) (request response : json)
    (parsed_url : urllib.ParseResult) (t : test) : result bool :=
  match t with
  | ByDomain => Ok (domain_mismatch domain (urllib.netloc parsed_url))
  | ByMethod =>
      request_method <- get request "method" (JStr "") ;;
      Ok (method_mismatch method request_method)
  | ByStatus =>
      response_status <- get response "status" (JInt 0) ;;
      Ok (status_mismatch status_code response_status)
  | ByPattern => pattern_mismatch path_pattern (urllib.path parsed_url)
  end.

Fixpoint run_tests (domain method : option string) (status_code : option Z)
    (path_pattern : option string) (request response : json)
    (parsed_url : urllib.ParseResult) (order : list test) : result bool :=
  match order with
  | [] => Ok false
  | t :: rest =>
      skip <- run_test domain method status_code path_pattern
                request response parsed_url t ;;
      if skip then Ok true
      else run_tests domain method status_code path_pattern
             request response parsed_url rest
  end.

Definition visit_in (order : list test) (domain method : option string)
    (status_code : option Z) (path_pattern : option string) (entry : json)
  : result (option EndpointRecord) :=
  request <- get entry "request" (JDict []) ;;
  response <- get entry "response" (JDict []) ;;
  url <- get request "url" (JStr "") ;;
  parsed_url <- urllib.urlparse url ;;
  skip <- run_tests domain method status_code path_pattern
            request response parsed_url order ;;
  if skip then Ok None else
  request_method <- get request "method" (JStr "") ;;
  response_status <- get response "status" (JInt 0) ;;
  endpoint_info <- assemble entry request response url parsed_url
                     request_method response_status ;;
  Ok (Some endpoint_info).

Definition get_endpoints_in (order : list test) (self : HarParser)
    (domain method : option string) (status_code : option Z)
    (path_pattern : option string) : result (list EndpointRecord) :=
  missing <- lacks_entries (har_data self) ;;
  if missing then Ok []
  else
    entries <- log_entries (har_data self) ;;
    items <- iter entries ;;
    for_each (visit_in order domain method status_code path_pattern) [] items.

(** The walk from the document to the loop, for any body that, like
    [visit], calls [get] on the entry first. *)
Definition walk (body : json -> result (option EndpointRecord))
    (har_data : json) : result (list EndpointRecord) :=
  missing <- lacks_entries har_data ;;
  if missing then Ok []
  else
    entries <- log_entries har_data ;;
    items <- iter entries ;;
    for_each body [] items.

End Ordered.

(** ** A library instance to run the engine

    A small pattern language and decoder that agree with Python's on the
    texts used below, so that the engine can be evaluated on the fixture of
    the repository's tests. The patterns are those built from literal
    characters, escaped punctuation, [\d], [.], [^], [$], groups, [|] and
    the postfix operators; the decoder reads JSON without floating-point
    numbers and without escapes in strings. [str] of a float, list or
    dictionary and [json.dump] are not given: they stand as placeholders
    that no example reaches. *)
Module mini.

Inductive re : Type :=
| Eps
| Chr (c : ascii)
| Digit
| AnyChar
| Bol
| Eol
| Seq (a b : re)
| Alt (a b : re)
| Star (a : re).

Definition newline : string := String csv.lf EmptyString.

(** Backtracking match of [r] at the head of [s], then [k] on what is
    left; [start] tells whether the head is the start of the subject. *)
Fixpoint matches (r : re) (start : bool) (s : string)
    (k : bool -> string -> bool) : bool :=
  match r with
  | Eps => k start s
  | Chr c =>
      match s with
      | String a s' => Ascii.eqb a c && k false s'
      | EmptyString => false
      end
  | Digit =>
      match s with
      | String a s' => is_digit a && k false s'
      | EmptyString => false
      end
  | AnyChar =>
      match s with
      | String a s' => negb (Ascii.eqb a csv.lf) && k false s'
      | EmptyString => false
      end
  | Bol => start && k start s
  | Eol => (String.eqb s "" || String.eqb s newline) && k start s
  | Seq a b => matches a start s (fun st s' => matches b st s' k)
  | Alt a b => matches a start s k || matches b start s k
  | Star a =>
      (fix loop (n : nat) (st : bool) (s : string) : bool :=
         k st s ||
         match n with
         | O => false
         | S n' =>
             matches a st s
               (fun st' s' =>
                  Nat.ltb (String.length s') (String.length s) && loop n' st' s')
         end) (String.length s) start s
  end.

Fixpoint search_from (r : re) (start : bool) (s : string) : bool :=
  matches r start s (fun _ _ => true) ||
  match s with
  | EmptyString => false
  | String _ s' => search_from r false s'
  end.

Definition search (r : re) (s : string) : bool := search_from r true s.

Definition punct (c : ascii) : bool :=
  negb (is_lower c || is_upper c || is_digit c) &&
  Nat.ltb 32 (nat_of_ascii c) && Nat.ltb (nat_of_ascii c) 127.

Definition is_char (n : nat) (c : ascii) : bool := Ascii.eqb c (urllib.ch n).

(** Postfix operators after an atom; a second operator in a row is not
    read. *)
Definition postfix (r : re) (s : string) : re * string :=
  match s with
  | String c s' =>
      if is_char 42 c then (Star r, s')
      else if is_char 43 c then (Seq r (Star r), s')
      else if is_char 63 c then (Alt r Eps, s')
      else (r, s)
  | EmptyString => (r, s)
  end.

Definition is_postfix (c : ascii) : bool :=
  is_char 42 c || is_char 43 c || is_char 63 c.

(** Recursive descent, [fuel] bounding the nesting of groups and the
    number of atoms. [parse_alt] reads up to a closing parenthesis or the
    end. *)
Fixpoint parse_alt (fuel : nat) (s : string) : option (re * string) :=
  match fuel with
  | O => None
  | S fuel' =>
      let parse_atom (s : string) : option (re * string) :=
        match s with
        | EmptyString => None
        | String c s' =>
            if is_char 40 c then
              match parse_alt fuel' s' with
              | Some (r, String c' s'') =>
                  if is_char 41 c' then Some (r, s'') else None
              | _ => None
              end
            else if is_char 92 c then
              match s' with
              | String e s'' =>
                  if is_char 100 e then Some (Digit, s'')
                  else if punct e then Some (Chr e, s'')
                  else None
              | EmptyString => None
              end
            else if is_char 46 c then Some (AnyChar, s')
            else if is_char 94 c then Some (Bol, s')
            else if is_char 36 c then Some (Eol, s')
            else if is_postfix c || is_char 91 c || is_char 93 c ||
                    is_char 123 c || is_char 125 c
            then None
            else Some (Chr c, s')
        end in
      let parse_seq :=
        (fix parse_seq (n : nat) (s : string) : option (re * string) :=
           match s with
           | EmptyString => Some (Eps, s)
           | String c _ =>
               if is_char 124 c || is_char 41 c then Some (Eps, s)
               else
                 match n with
                 | O => None
                 | S n' =>
                     match parse_atom s with
                     | Some (a, rest) =>
                         let (a', rest') := postfix a rest in
                         match rest' with
                         | String c' _ =>
                             if is_postfix c' then None
                             else
                               match parse_seq n' rest' with
                               | Some (b, rest'') => Some (Seq a' b, rest'')
                               | None => None
                               end
                         | EmptyString => Some (Seq a' Eps, rest')
                         end
                     | None => None
                     end
                 end
           end) in
      match parse_seq fuel' s with
      | Some (a, String c s') =>
          if is_char 124 c then
            match parse_alt fuel' s' with
            | Some (b, rest) => Some (Alt a b, rest)
            | None => None
            end
          else Some (a, String c s')
      | r => r
      end
  end.

Definition compile (pat : string) : option re :=
  match parse_alt (S (String.length pat)) pat with
  | Some (r, EmptyString) => Some r
  | _ => None
  end.

Fixpoint digits_value (acc : Z) (s : string) : Z * string :=
  match s with
  | EmptyString => (acc, s)
  | String c s' =>
      if is_digit c
      then digits_value (10 * acc + Z.of_nat (nat_of_ascii c - 48)) s'
      else (acc, s)
  end.

(** A decimal literal without sign or leading zeros, and what follows
    it; a fraction or an exponent is not read. *)
Definition natural (s : string) : option (Z * string) :=
  match s with
  | EmptyString => None
  | String c rest =>
      if negb (is_digit c) then None
      else
        let (n, rest') := if is_char 48 c then (0, rest) else digits_value 0 s in
        match rest' with
        | String d _ =>
            if is_digit d || is_char 46 d || is_char 101 d || is_char 69 d
            then None else Some (n, rest')
        | EmptyString => Some (n, rest')
        end
  end.

Definition whitespace (c : ascii) : bool :=
  is_char 32 c || is_char 9 c || is_char 10 c || is_char 13 c.

Fixpoint skip_ws (s : string) : string :=
  match s with
  | String c s' => if whitespace c then skip_ws s' else s
  | EmptyString => s
  end.

(** The characters of a string literal up to its closing quote; an escape
    is not read, a control character is an error. *)
Fixpoint string_body (s : string) : option (string * string) :=
  match s with
  | EmptyString => None
  | String c s' =>
      if is_char 34 c then Some (EmptyString, s')
      else if is_char 92 c || Nat.ltb (nat_of_ascii c) 32 then None
      else
        match string_body s' with
        | Some (body, rest) => Some (String c body, rest)
        | None => None
        end
  end.

(** A later member replaces the value of an earlier one with its key. *)
Fixpoint put (k : string) (v : json) (items : list (string * json))
  : list (string * json) :=
  match items with
  | [] => [(k, v)]
  | (k', v') :: rest =>
      if String.eqb k' k then (k', v) :: rest else (k', v') :: put k v rest
  end.

Definition keyword (s : string) : option (json * string) :=
  if String.prefix "null" s then Some (JNull, str_drop 4 s)
  else if String.prefix "true" s then Some (JBool true, str_drop 4 s)
  else if String.prefix "false" s then Some (JBool false, str_drop 5 s)
  else None.

(** One JSON value at the head of [s], white space before it skipped. *)
Fixpoint value (fuel : nat) (s : string) : option (json * string) :=
  match fuel with
  | O => None
  | S fuel' =>
      match skip_ws s with
      | EmptyString => None
      | String c s' =>
          if is_char 34 c then
            option_map (fun r => (JStr (fst r), snd r)) (string_body s')
          else if is_char 45 c then
            option_map (fun r => (JInt (- fst r), snd r)) (natural s')
          else if is_digit c then
            option_map (fun r => (JInt (fst r), snd r)) (natural (String c s'))
          else if is_char 91 c then
            match skip_ws s' with
            | String d rest =>
                if is_char 93 d then Some (JList [], rest)
                else
                  (fix elements (n : nat) (acc : list json) (s : string)
                     : option (json * string) :=
                     match n with
                     | O => None
                     | S n' =>
                         match value fuel' s with
                         | Some (v, rest) =>
                             match skip_ws rest with
                             | String e rest' =>
                                 if is_char 44 e then elements n' (acc ++ [v])%list rest'
                                 else if is_char 93 e
                                 then Some (JList (acc ++ [v])%list, rest')
                                 else None
                             | EmptyString => None
                             end
                         | None => None
                         end
                     end) fuel' [] s'
            | EmptyString => None
            end
          else if is_char 123 c then
            match skip_ws s' with
            | String d rest =>
                if is_char 125 d then Some (JDict [], rest)
                else
                  (fix members (n : nat) (acc : list (string * json)) (s : string)
                     : option (json * string) :=
                     match n with
                     | O => None
                     | S n' =>
                         match skip_ws s with
                         | String q s1 =>
                             if is_char 34 q then
                               match string_body s1 with
                               | Some (k, s2) =>
                                   match skip_ws s2 with
                                   | String col s3 =>
                                       if is_char 58 col then
                                         match value fuel' s3 with
                                         | Some (v, rest) =>
                                             match skip_ws rest with
                                             | String e rest' =>
                                                 if is_char 44 e
                                                 then members n' (put k v acc) rest'
                                                 else if is_char 125 e
                                                 then Some (JDict (put k v acc), rest')
                                                 else None
                                             | EmptyString => None
                                             end
                                         | None => None
                                         end
                                       else None
                                   | EmptyString => None
                                   end
                               | None => None
                               end
                             else None
                         | EmptyString => None
                         end
                     end) fuel' [] s'
            | EmptyString => None
            end
          else keyword (String c s')
      end
  end.

Definition decode (s : string) : option json :=
  match value (S (String.length s)) s with
  | Some (v, rest) =>
      match skip_ws rest with
      | EmptyString => Some v
      | String _ _ => None
      end
  | None => None
  end.

(** Single quotes to double quotes, to write JSON text in a literal. *)
Definition dq (s : string) : string :=
  str_map (fun c => if is_char 39 c then urllib.ch 34 else c) s.

#[local] Instance lib : PyLib := {
  json_loads := decode;
  pattern := re;
  re_compile := compile;
  pattern_search := search;
  str_other := fun _ => "";
  str_bytes := fun _ => "b''";
  json_dump := fun _ => Raise TypeError
}.

End mini.

(** ** The fixture of the repository's tests *)
Module fixture.

Definition users_entry : json :=
  JDict [
    ("request", JDict [
       ("method", JStr "GET");
       ("url", JStr "https://api.example.com/v1/users");
       ("headers", JList [JDict [("name", JStr "Accept");
                                 ("value", JStr "application/json")]]);
       ("queryString", JList [JDict [("name", JStr "page");
                                     ("value", JStr "1")]])]);
    ("response", JDict [("status", JInt 200); ("bodySize", JInt 1024)]);
    ("time", JInt 150)].

Definition login_body : string :=
  mini.dq "{'username':'test','password':'test123'}".

Definition login_entry : json :=
  JDict [
    ("request", JDict [
       ("method", JStr "POST");
       ("url", JStr "https://example.com/login");
       ("headers", JList [JDict [("name", JStr "Content-Type");
                                 ("value", JStr "application/json")]]);
       ("postData", JDict [("mimeType", JStr "application/json");
                           ("text", JStr login_body)])]);
    ("response", JDict [("status", JInt 200); ("bodySize", JInt 512)]);
    ("time", JInt 200)].

Definition document (entries : list json) : json :=
  JDict [("log", JDict [("version", JStr "1.2");
                        ("creator", JDict [("name", JStr "Test");
                                           ("version", JStr "1.0")]);
                        ("entries", JList entries)])].

Definition har : json := document [users_entry; login_entry].

Definition parser : HarParser := mkHarParser "test.har" har.

(** An entry whose URL opens a bracketed host and never closes it. *)
Definition malformed_entry : json :=
  JDict [
    ("request", JDict [("method", JStr "GET");
                       ("url", JStr "http://[::1/status")]);
    ("response", JDict [("status", JInt 200); ("bodySize", JInt 0)]);
    ("time", JInt 3)].

(** A document with a [log] and no [entries]. *)
Definition without_entries : json :=
  JDict [("log", JDict [("version", JStr "1.2")])].

(** A document whose [log] is [null], and its text. *)
Definition null_log : json := JDict [("log", JNull)].

Definition null_log_text : string := mini.dq "{'log': null}".

(** A file store where [capture.har] exists and may not be read. *)
Definition locked : filesystem :=
  fun p => if String.eqb p "capture.har" then Some NoPermission else None.

(** A file store with nothing in it. *)
Definition empty : filesystem := fun _ => None.

Definition crlf : string := csv.lineterminator.

Definition users_record : EndpointRecord :=
  mkEndpoint (JStr "https://api.example.com/v1/users") (JStr "GET")
    (Str "https") (Str "api.example.com") (Str "/v1/users")
    [(JStr "page", JStr "1")] [(JStr "Accept", JStr "application/json")]
    JNull (JInt 200) (JInt 1024) (JInt 150).

Definition login_record : EndpointRecord :=
  mkEndpoint (JStr "https://example.com/login") (JStr "POST")
    (Str "https") (Str "example.com") (Str "/login")
    [] [(JStr "Content-Type", JStr "application/json")]
    (JDict [("username", JStr "test"); ("password", JStr "test123")])
    (JInt 200) (JInt 512) (JInt 200).

End fixture.

(** ** Notions for the further properties *)

(** The eight fields of a record that the CSV export writes. *)
Definition scalar_fields (r : EndpointRecord)
  : json * json * text * text * text * json * json * json :=
  (url r, method r, protocol r, domain r, path r,
   status_code r, response_size r, time r).

(** The set of the domains of a list of records, built as
    [get_unique_domains] builds its set. *)
Definition domains_of (recs : list EndpointRecord) : list text :=
  fold_left (fun domains r => set_add (domain r) domains) recs [].

(** [d.get(k)]: the value in the slot of [k], if there is one. *)
Fixpoint dict_lookup (d : pydict) (k : json) : option json :=
  match d with
  | [] => None
  | (k', v) :: rest => if key_eqb k' k then Some v else dict_lookup rest k
  end.

(** The value of the last item of the list whose name is the string
    [name], names and values read as the loop of [flatten] reads them. *)
Fixpoint last_named (items : list json) (name : string) : option json :=
  match items with
  | [] => None
  | item :: rest =>
      match last_named rest name with
      | Some v => Some v
      | None =>
          if eq_str (field item "name" (JStr "")) name
          then Some (field item "value" (JStr ""))
          else None
      end
  end.

(** An item of a header or query list as HAR has it: an object whose
    name, when present, is a string. *)
Definition named_item (item : json) : bool :=
  match item with
  | JDict _ =>
      match field item "name" (JStr "") with
      | JStr _ => true
      | _ => false
      end
  | _ => false
  end.

(** A dictionary all of whose keys are strings. *)
Definition string_keyed (d : pydict) : Prop :=
  Forall (fun kv => exists n, fst kv = JStr n) d.

(** ** The command line, [har_inspector/cli.py]

    [main] after [parse_args]: the arguments are taken as [argparse] hands
    them over, a [Namespace] with one attribute for each option. What the
    run prints is kept as the list of the texts printed, one for each call
    of [print]; the text of an exception, [str(e)], is left to the
    exception and comes in as [describe]. *)
Module cli.

Record Namespace : Type := mkNamespace {
  har_file : string;
  domain : option string;
  method : option string;
  status : option Z;
  pattern : option string;
  api_only : bool;
  output : option string;
  list_domains : bool
}.

(** What a run leaves: the exit code, the texts printed on the standard
    output and on the standard error, and the file store. The file store is
    [None] when an export was started and raised: the state of the output
    file is then not followed. *)
Record outcome : Type := mkOutcome {
  exit_code : Z;
  stdout : list string;
  stderr : list string;
  files : option filesystem
}.

Fixpoint insert_sorted (x : string) (l : list string) : list string :=
  match l with
  | [] => [x]
  | y :: rest =>
      if String.leb x y then x :: l else y :: insert_sorted x rest
  end.

(** The strings of a list in ascending order. *)
Definition sort_strings (l : list string) : list string :=
  fold_right insert_sorted [] l.

(** The order of [str]: [x <= y]. *)
Definition string_le (x y : string) : Prop := String.leb x y = true.

Fixpoint all_str (l : list text) : option (list string) :=
  match l with
  | [] => Some []
  | Str s :: rest => option_map (cons s) (all_str rest)
  | Bytes _ :: _ => None
  end.

Fixpoint all_bytes (l : list text) : option (list string) :=
  match l with
  | [] => Some []
  | Bytes b :: rest => option_map (cons b) (all_bytes rest)
  | Str _ :: _ => None
  end.

(** [sorted(domains)] on the elements of the set: strings compare with
    strings and bytes with bytes; a set that holds both cannot be
    ordered. *)
Definition sorted (domains : list text) : result (list text) :=
  match all_str domains with
  | Some l => Ok (map Str (sort_strings l))
  | None =>
      match all_bytes domains with
      | Some l => Ok (map Bytes (sort_strings l))
      | None => Raise TypeError
      end
  end.

Section Main.

Context {lib : PyLib}.

Variable describe : exn -> string.

(** The text of a domain inside an f-string. *)
Definition text_str (t : text) : string :=
  match t with
  | Str s => s
  | Bytes b => str_bytes b
  end.

(** The [except] branch: one line on the standard error, exit code 1;
    [out] is what had been printed before. *)
Definition failed (out : list string) (e : exn) (fs : option filesystem)
  : outcome :=
  mkOutcome 1 out ["Error: " ++ describe e] fs.

Definition main (parsed_args : Namespace) (fs : filesystem) : outcome :=
  match __init__ fs (har_file parsed_args) with
  | Raise e => failed [] e (Some fs)
  | Ok parser =>
      if list_domains parsed_args then
        match get_unique_domains parser with
        | Raise e => failed [] e (Some fs)
        | Ok domains =>
            let out := ["Unique domains found:"] in
            match sorted domains with
            | Raise e => failed out e (Some fs)
            | Ok ordered =>
                mkOutcome 0
                  (out ++ map (fun d => ("  - " ++ text_str d)%string) ordered)%list
                  [] (Some fs)
            end
        end
      else
        match
          (if api_only parsed_args then get_api_endpoints parser None
           else get_endpoints parser (domain parsed_args)
                  (method parsed_args) (status parsed_args)
                  (pattern parsed_args))
        with
        | Raise e => failed [] e (Some fs)
        | Ok endpoints =>
            match output parsed_args with
            | Some output_file =>
                if String.eqb output_file "" then
                  match json_dump endpoints with
                  | Raise e => failed [] e (Some fs)
                  | Ok dumped => mkOutcome 0 [dumped] [] (Some fs)
                  end
                else
                  match export_endpoints fs endpoints output_file with
                  | Raise e => failed [] e None
                  | Ok fs' =>
                      mkOutcome 0
                        ["Exported " ++
                         csv.str_of_int (Z.of_nat (List.length endpoints)) ++
                         " endpoints to " ++ output_file]
                        [] (Some fs')
                  end
            | None =>
                match json_dump endpoints with
                | Raise e => failed [] e (Some fs)
                | Ok dumped => mkOutcome 0 [dumped] [] (Some fs)
                end
            end
        end
  end.

(** The exception that leaves the [try] block of [main], lines 80 to
    107: the one of the first call that raises, the calls taken in the
    order of the block. *)
Inductive raised (parsed_args : Namespace) (fs : filesystem) (e : exn)
  : Prop :=
| raised_by_loading :
    __init__ fs (har_file parsed_args) = Raise e ->
    raised parsed_args fs e
| raised_by_domains parser :
    __init__ fs (har_file parsed_args) = Ok parser ->
    list_domains parsed_args = true ->
    get_unique_domains parser = Raise e ->
    raised parsed_args fs e
| raised_by_sorted parser domains :
    __init__ fs (har_file parsed_args) = Ok parser ->
    list_domains parsed_args = true ->
    get_unique_domains parser = Ok domains ->
    sorted domains = Raise e ->
    raised parsed_args fs e
| raised_by_extraction parser :
    __init__ fs (har_file parsed_args) = Ok parser ->
    list_domains parsed_args = false ->
    (if api_only parsed_args then get_api_endpoints parser None
     else get_endpoints parser (domain parsed_args) (method parsed_args)
            (status parsed_args) (pattern parsed_args)) = Raise e ->
    raised parsed_args fs e
| raised_by_export parser endpoints output_file :
    __init__ fs (har_file parsed_args) = Ok parser ->
    list_domains parsed_args = false ->
    (if api_only parsed_args then get_api_endpoints parser None
     else get_endpoints parser (domain parsed_args) (method parsed_args)
            (status parsed_args) (pattern parsed_args)) = Ok endpoints ->
    output parsed_args = Some output_file ->
    output_file <> "" ->
    export_endpoints fs endpoints output_file = Raise e ->
    raised parsed_args fs e
| raised_by_dumps parser endpoints :
    __init__ fs (har_file parsed_args) = Ok parser ->
    list_domains parsed_args = false ->
    (if api_only parsed_args then get_api_endpoints parser None
     else get_endpoints parser (domain parsed_args) (method parsed_args)
            (status parsed_args) (pattern parsed_args)) = Ok endpoints ->
    output parsed_args = None \/ output parsed_args = Some "" ->
    json_dump endpoints = Raise e ->
    raised parsed_args fs e.

End Main.

End cli.

(** ** A sample capture for the command line *)
Module sample.

Definition capture : string :=
  mini.dq
    ("{'log': {'entries': [" ++
     "{'request': {'method': 'GET', 'url': 'https://b.example.com/v1/users'}," ++
     " 'response': {'status': 200}}, " ++
     "{'request': {'method': 'POST', 'url': 'https://a.example.com/login'}," ++
     " 'response': {'status': 404}}]}}").

Definition disk : filesystem := fs_write fixture.empty "capture.har" capture.

(** [--list-domains] together with other options. *)
Definition listing : cli.Namespace :=
  cli.mkNamespace "capture.har" (Some "b.example.com") (Some "GET") (Some 200)
    (Some "/v\d+/") true (Some "out.csv") true.

(** [--api-only] together with filter options. *)
Definition api_with_filters : cli.Namespace :=
  cli.mkNamespace "capture.har" (Some "a.example.com") (Some "POST") (Some 404)
    (Some "/login") true (Some "out.csv") false.

(** A capture with a URL that is a string and a URL that is [null]. *)
Definition mixed_capture : string :=
  mini.dq
    ("{'log': {'entries': [" ++
     "{'request': {'url': 'https://a.example.com/'}}, " ++
     "{'request': {'url': null}}]}}").

Definition mixed_disk : filesystem :=
  fs_write fixture.empty "capture.har" mixed_capture.

(** The text of an exception, as far as the samples need it. *)
Definition describe (e : exn) : string :=
  match e with
  | ValueError msg => msg
  | FileNotFoundError msg => msg
  | _ => "error"
  end.

(** A record with a header, a query parameter and a body, and the same
    record without them. *)
Definition bare_users_record : EndpointRecord :=
  mkEndpoint (JStr "https://api.example.com/v1/users") (JStr "GET")
    (Str "https") (Str "api.example.com") (Str "/v1/users")
    [] [] (JStr "ignored") (JInt 200) (JInt 1024) (JInt 150).

(** An entry with a repeated header and a repeated query parameter. *)
Definition repeated_entry : json :=
  JDict [
    ("request", JDict [
       ("url", JStr "http://example.com/a?x=1&x=2");
       ("headers", JList [
          JDict [("name", JStr "Accept"); ("value", JStr "text/html")];
          JDict [("name", JStr "Host"); ("value", JStr "example.com")];
          JDict [("name", JStr "Accept"); ("value", JStr "*/*")]]);
       ("queryString", JList [
          JDict [("name", JStr "x"); ("value", JStr "1")];
          JDict [("name", JStr "x"); ("value", JStr "2")]]);
       ("postData", JDict [("text", JStr "x=1&x=2")])])].

Definition repeated_record : EndpointRecord :=
  mkEndpoint (JStr "http://example.com/a?x=1&x=2") (JStr "")
    (Str "http") (Str "example.com") (Str "/a")
    [(JStr "x", JStr "2")]
    [(JStr "Accept", JStr "*/*"); (JStr "Host", JStr "example.com")]
    (JStr "x=1&x=2") (JInt 0) (JInt 0) (JInt 0).

End sample.

(** * Properties *)

(** ** The models of the libraries on sample inputs *)

Example urlparse_users :
  urllib.urlparse (JStr "https://api.example.com/v1/users?page=1#top") =
  Ok (urllib.mkParseResult (Str "https") (Str "api.example.com")
        (Str "/v1/users") (Str "") (Str "page=1") (Str "top")).
Proof. reflexivity. Qed.

Example urlparse_relative :
  urllib.urlparse (JStr "a/b;x/c;p=1?q") =
  Ok (urllib.mkParseResult (Str "") (Str "") (Str "a/b;x/c") (Str "p=1")
        (Str "q") (Str "")).
Proof. reflexivity. Qed.

Example urlparse_port_like :
  urllib.urlparse (JStr "HTTP://User@Host:80") =
  Ok (urllib.mkParseResult (Str "http") (Str "User@Host:80") (Str "")
        (Str "") (Str "") (Str "")).
Proof. reflexivity. Qed.

Example urlparse_open_bracket :
  urllib.urlparse (JStr "http://[::1/x") = Raise (ValueError "Invalid IPv6 URL").
Proof. reflexivity. Qed.

Example urlparse_null :
  urllib.urlparse JNull =
  Ok (urllib.mkParseResult (Bytes "") (Bytes "") (Bytes "") (Bytes "")
        (Bytes "") (Bytes "")).
Proof. reflexivity. Qed.

Example splitext_csv : os_path.splitext "out/run.1/Endpoints.CSV" = ("out/run.1/Endpoints", ".CSV").
Proof. reflexivity. Qed.

Example splitext_hidden : os_path.splitext "out.d/.csv" = ("out.d/.csv", "").
Proof. reflexivity. Qed.

(** ** The tests of the repository, evaluated *)

Section Tests.

#[local] Existing Instance mini.lib.

Example test_get_endpoints :
  get_endpoints fixture.parser None None None None =
  Ok [fixture.users_record; fixture.login_record].
Proof. vm_compute. reflexivity. Qed.

Example test_filter_by_domain :
  get_endpoints fixture.parser (Some "api.example.com") None None None =
  Ok [fixture.users_record].
Proof. vm_compute. reflexivity. Qed.

Example test_filter_by_method :
  get_endpoints fixture.parser None (Some "POST") None None =
  Ok [fixture.login_record].
Proof. vm_compute. reflexivity. Qed.

Example test_get_api_endpoints :
  get_api_endpoints fixture.parser None = Ok [fixture.users_record].
Proof. vm_compute. reflexivity. Qed.

Example test_get_unique_domains :
  get_unique_domains fixture.parser =
  Ok [Str "api.example.com"; Str "example.com"].
Proof. vm_compute. reflexivity. Qed.

Example test_export_to_csv :
  exists fs',
    export_endpoints fixture.empty
      [fixture.users_record; fixture.login_record] "output.csv" = Ok fs' /\
    fs' "output.csv" =
    Some (Regular
      (csv_header ++ fixture.crlf ++
       "https://api.example.com/v1/users,GET,https,api.example.com,/v1/users,200,1024,150"
       ++ fixture.crlf ++
       "https://example.com/login,POST,https,example.com,/login,200,512,200"
       ++ fixture.crlf)).
Proof. eexists. split; vm_compute; reflexivity. Qed.

Example test_export_unsupported :
  export_endpoints fixture.empty [fixture.users_record] "output.txt" =
  Raise (ValueError "Unsupported file format: .txt").
Proof. reflexivity. Qed.

Example test_invalid_har_file :
  __init__ (fs_write fixture.empty "invalid.har" "This is not a valid JSON file")
    "invalid.har" =
  Raise (ValueError "Invalid HAR file format: invalid.har").
Proof. vm_compute. reflexivity. Qed.

Example test_nonexistent_har_file :
  __init__ fixture.empty "nonexistent.har" =
  Raise (FileNotFoundError "HAR file not found: nonexistent.har").
Proof. reflexivity. Qed.

Example test_empty_har_file :
  exists parser,
    __init__ (fs_write fixture.empty "empty.har" "{}") "empty.har" = Ok parser /\
    get_endpoints parser None None None None = Ok [].
Proof. eexists. split; vm_compute; reflexivity. Qed.

(** Values of the wrong type are not tolerated the way missing keys are:
    a [log] that is [null] fails the membership test, an entry that is not
    an object has no [get]. *)
Example null_log_raises :
  get_endpoints (mkHarParser "odd.har" (JDict [("log", JNull)]))
    None None None None = Raise TypeError.
Proof. reflexivity. Qed.

Example scalar_entry_raises :
  get_endpoints (mkHarParser "odd.har" (fixture.document [JInt 7]))
    None None None None = Raise AttributeError.
Proof. reflexivity. Qed.

(** A URL that is [null] is parsed as empty bytes: it fails every domain
    filter, and a pattern cannot be searched in its path. *)
Example null_url_record :
  exists r,
    visit None None None None (JDict [("request", JDict [("url", JNull)])]) =
    Ok (Some r) /\
    (protocol r, domain r, path r) = (Bytes "", Bytes "", Bytes "").
Proof. eexists. split; vm_compute; reflexivity. Qed.

Example null_url_pattern :
  visit None None None (Some "/api/")
    (JDict [("request", JDict [("url", JNull)])]) = Raise TypeError.
Proof. vm_compute. reflexivity. Qed.

(** An invalid pattern raises only when an entry gets to the path test. *)
Example invalid_pattern_reached :
  get_endpoints fixture.parser None None None (Some "(") = Raise re_error.
Proof. vm_compute. reflexivity. Qed.

Example invalid_pattern_not_reached :
  get_endpoints fixture.parser (Some "other.example") None None (Some "(")
  = Ok [].
Proof. vm_compute. reflexivity. Qed.

(** A later header of the same name replaces the value of the earlier
    one, at the earlier one's place. *)
Example flatten_last_wins :
  flatten []
    [JDict [("name", JStr "Accept"); ("value", JStr "text/html")];
     JDict [("name", JStr "Host"); ("value", JStr "example.com")];
     JDict [("name", JStr "Accept"); ("value", JStr "*/*")]] =
  Ok [(JStr "Accept", JStr "*/*"); (JStr "Host", JStr "example.com")].
Proof. reflexivity. Qed.

End Tests.

(** ** Text *)

Lemma text_eqb_eq (a b : text) : text_eqb a b = true <-> a = b.
Proof.
  destruct a, b; simpl; try rewrite String.eqb_eq;
    split; intros H; try discriminate; try (inversion H; reflexivity);
    subst; reflexivity.
Qed.

(** ** The error monad and the operators *)

Lemma bind_ok {A B : Type} (m : result A) (k : A -> result B) (b : B) :
  bind m k = Ok b -> exists a, m = Ok a /\ k a = Ok b.
Proof.
  destruct m as [a|e]; simpl; intros H; [exists a; auto | discriminate].
Qed.

Lemma get_field (v : json) (k : string) (default x : json) :
  get v k default = Ok x -> field v k default = x.
Proof.
  destruct v; simpl; intros H; try discriminate.
  inversion H; reflexivity.
Qed.

Lemma get_is_dict (v : json) (k : string) (default x : json) :
  get v k default = Ok x -> exists items, v = JDict items.
Proof.
  destruct v; simpl; intros H; try discriminate. eauto.
Qed.

Lemma get_dict (items : list (string * json)) (k : string) (default : json) :
  get (JDict items) k default = Ok (field (JDict items) k default).
Proof. reflexivity. Qed.

Section Visit.

Context {lib : PyLib}.

(** *** One entry *)

Lemma assemble_fields entry request response u pu rm rs r :
  assemble entry request response u pu rm rs = Ok r ->
  url r = u /\ method r = rm /\ protocol r = urllib.scheme pu /\
  domain r = urllib.netloc pu /\ path r = urllib.path pu /\
  status_code r = rs.
Proof.
  unfold assemble. intros H.
  repeat (apply bind_ok in H; destruct H as (? & _ & H)).
  inversion H; subst; simpl. repeat split.
Qed.

(** What the loop does with an entry, read off the entry: the URL parses,
    a skipped entry fails the filters, and an appended record is the
    entry's own record and passes them. *)
Lemma visit_ok d m s p entry ro :
  visit d m s p entry = Ok ro ->
  match ro with
  | None => passes d m s p entry = false
  | Some r =>
      passes d m s p entry = true /\ record_of entry r /\
      record_passes d m s p r = true
  end.
Proof.
  unfold record_of, visit, passes, record_passes, pattern_accepts,
    entry_netloc, entry_path, entry_method, entry_status, entry_url.
  intros H.
  apply bind_ok in H; destruct H as (request & Hreq & H).
  apply bind_ok in H; destruct H as (response & Hresp & H).
  apply bind_ok in H; destruct H as (u & Hu & H).
  apply bind_ok in H; destruct H as (pu & Hpu & H).
  rewrite Hreq, Hresp; simpl. rewrite Hu; simpl. rewrite Hpu; simpl.
  rewrite (get_field _ _ _ Hreq), (get_field _ _ _ Hu), Hpu.
  destruct (domain_mismatch d (urllib.netloc pu)) eqn:Hd.
  { inversion H; subst; reflexivity. }
  apply bind_ok in H; destruct H as (rm & Hrm & H).
  rewrite (get_field _ _ _ Hrm), Hrm; simpl.
  destruct (method_mismatch m rm) eqn:Hm.
  { inversion H; subst; reflexivity. }
  apply bind_ok in H; destruct H as (rs & Hrs & H).
  rewrite (get_field _ _ _ Hresp), (get_field _ _ _ Hrs), Hrs; simpl.
  destruct (status_mismatch s rs) eqn:Hs.
  { inversion H; subst; reflexivity. }
  apply bind_ok in H; destruct H as (skip & Hskip & H).
  rewrite Hskip.
  destruct skip.
  { inversion H; subst; reflexivity. }
  apply bind_ok in H; destruct H as (r & Hr & H).
  inversion H; subst; clear H.
  rewrite Hr; simpl.
  destruct (assemble_fields _ _ _ _ _ _ _ Hr) as (_ & Em & _ & Ed & Ep & Es).
  rewrite Em, Ed, Ep, Es, Hd, Hm, Hs, Hskip. repeat split.
Qed.

(** On an entry that has a record, the loop is the four tests on the
    record's fields, in the order of the code. *)
Lemma visit_of_record d m s p entry r :
  record_of entry r ->
  visit d m s p entry =
  if domain_mismatch d (domain r) then Ok None
  else if method_mismatch m (method r) then Ok None
  else if status_mismatch s (status_code r) then Ok None
  else skip <- pattern_mismatch p (path r) ;;
       if skip then Ok None else Ok (Some r).
Proof.
  unfold record_of, visit. intros H.
  apply bind_ok in H; destruct H as (request & Hreq & H).
  apply bind_ok in H; destruct H as (response & Hresp & H).
  apply bind_ok in H; destruct H as (u & Hu & H).
  apply bind_ok in H; destruct H as (pu & Hpu & H).
  simpl in H.
  apply bind_ok in H; destruct H as (rm & Hrm & H).
  simpl in H.
  apply bind_ok in H; destruct H as (rs & Hrs & H).
  simpl in H.
  apply bind_ok in H; destruct H as (r' & Hr & H).
  inversion H; subst r'; clear H.
  destruct (assemble_fields _ _ _ _ _ _ _ Hr) as (_ & Em & _ & Ed & Ep & Es).
  rewrite Hreq, Hresp; simpl. rewrite Hu; simpl. rewrite Hpu; simpl.
  rewrite Ed, Em, Es, Ep.
  destruct (domain_mismatch d (urllib.netloc pu)); [reflexivity|].
  rewrite Hrm; simpl.
  destruct (method_mismatch m rm); [reflexivity|].
  rewrite Hrs; simpl.
  destruct (status_mismatch s rs); [reflexivity|].
  destruct (pattern_mismatch p (urllib.path pu)) as [[|]|]; simpl;
    try reflexivity.
  rewrite Hr. reflexivity.
Qed.

(** *** The loop *)

Lemma for_each_acc body acc entries :
  for_each body acc entries =
  (l <- for_each body [] entries ;; Ok (acc ++ l)%list).
Proof.
  revert acc. induction entries as [|e rest IH]; intros acc; simpl.
  - rewrite app_nil_r. reflexivity.
  - destruct (body e) as [[r|]|err]; simpl; try reflexivity.
    + rewrite (IH (acc ++ [r])%list), (IH [r]).
      destruct (for_each body [] rest); simpl; try reflexivity.
      rewrite <- app_assoc. reflexivity.
    + apply IH.
Qed.

Lemma for_each_cons body e rest :
  for_each body [] (e :: rest) =
  (r <- body e ;;
   l <- for_each body [] rest ;;
   Ok (match r with Some x => x :: l | None => l end)).
Proof.
  simpl. destruct (body e) as [[r|]|err]; simpl; try reflexivity.
  - rewrite for_each_acc. reflexivity.
  - destruct (for_each body [] rest); reflexivity.
Qed.

(** A body that skips the entries failing [pass], and appends for a
    passing entry a record related to it by [R], returns the records of
    the passing entries, one for one and in order. *)
Lemma for_each_ok body (pass : json -> bool)
    (R : json -> EndpointRecord -> Prop) :
  (forall e ro, body e = Ok ro ->
     match ro with
     | None => pass e = false
     | Some r => pass e = true /\ R e r
     end) ->
  forall entries recs,
    for_each body [] entries = Ok recs ->
    Forall2 R (filter pass entries) recs.
Proof.
  intros Hbody entries.
  induction entries as [|e rest IH]; intros recs H.
  - simpl in H. inversion H; subst. constructor.
  - rewrite for_each_cons in H.
    apply bind_ok in H; destruct H as (ro & Hv & H).
    apply bind_ok in H; destruct H as (l & Hl & H).
    inversion H; subst recs; clear H.
    specialize (IH l Hl). apply Hbody in Hv. simpl.
    destruct ro as [r|].
    + destruct Hv as (Hp & Hr). rewrite Hp. constructor; assumption.
    + rewrite Hv. assumption.
Qed.

(** A second body that keeps, entry by entry, the records of the first
    that satisfy [keep] returns the first result filtered by [keep]. *)
Lemma for_each_narrow body body' (keep : EndpointRecord -> bool) :
  (forall e ro, body e = Ok ro ->
     body' e =
     Ok (match ro with
         | Some r => if keep r then Some r else None
         | None => None
         end)) ->
  forall entries recs,
    for_each body [] entries = Ok recs ->
    for_each body' [] entries = Ok (filter keep recs).
Proof.
  intros Hstep entries.
  induction entries as [|e rest IH]; intros recs H.
  - simpl in *. inversion H; reflexivity.
  - rewrite for_each_cons in *.
    apply bind_ok in H; destruct H as (ro & Hv & H).
    apply bind_ok in H; destruct H as (l & Hl & H).
    inversion H; subst recs; clear H.
    rewrite (Hstep _ _ Hv), (IH _ Hl); simpl.
    destruct ro as [r|]; simpl; [destruct (keep r)|]; reflexivity.
Qed.

(** Two bodies that agree wherever the first returns give the same
    result when the first loop returns. *)
Lemma for_each_ext body body' :
  (forall e ro, body e = Ok ro -> body' e = Ok ro) ->
  forall entries recs,
    for_each body [] entries = Ok recs ->
    for_each body' [] entries = Ok recs.
Proof.
  intros Hstep entries.
  induction entries as [|e rest IH]; intros recs H.
  - exact H.
  - rewrite for_each_cons in *.
    apply bind_ok in H; destruct H as (ro & Hv & H).
    apply bind_ok in H; destruct H as (l & Hl & H).
    rewrite (Hstep _ _ Hv), (IH _ Hl). exact H.
Qed.

(** A loop returns when its body returns on every entry. *)
Lemma for_each_returns body entries :
  Forall (fun e => returns (body e) = true) entries ->
  exists recs, for_each body [] entries = Ok recs.
Proof.
  induction 1 as [|e rest He _ IH].
  - exists []. reflexivity.
  - destruct IH as (l & Hl). rewrite for_each_cons, Hl.
    destruct (body e) as [ro|]; [|discriminate].
    simpl. eauto.
Qed.

Lemma for_each_all_returned body entries recs :
  for_each body [] entries = Ok recs ->
  Forall (fun e => returns (body e) = true) entries.
Proof.
  revert recs. induction entries as [|e rest IH]; intros recs H;
    constructor.
  - rewrite for_each_cons in H. destruct (body e); [reflexivity|discriminate].
  - rewrite for_each_cons in H.
    apply bind_ok in H; destruct H as (ro & Hv & H).
    apply bind_ok in H; destruct H as (l & Hl & H). eauto.
Qed.

End Visit.

Section Documents.

Context {lib : PyLib}.

(** *** The document *)

(** On a document of the HAR shape the walk is the loop over the
    transaction entries. *)
Lemma walk_shaped body har_data :
  har_shaped har_data = true ->
  walk body har_data = for_each body [] (transactions har_data).
Proof.
  unfold walk, lacks_entries, log_entries, transactions, har_shaped.
  destruct har_data as [| | | | | |items]; try discriminate.
  simpl. destruct (assoc "log" items) as [lg|] eqn:Hlog; simpl;
    [|reflexivity].
  destruct lg as [| | | | | |litems]; try discriminate.
  simpl. destruct (assoc "entries" litems) as [ev|] eqn:Hent; simpl;
    [|reflexivity].
  destruct ev; try discriminate. reflexivity.
Qed.

(** Whatever the document, a result of the walk is a result of the loop
    over the transaction entries. *)
Lemma walk_loop body har_data recs :
  (forall x, body (JStr x) = Raise AttributeError) ->
  walk body har_data = Ok recs ->
  for_each body [] (transactions har_data) = Ok recs.
Proof.
  intros Hstr.
  unfold walk, lacks_entries, log_entries, transactions.
  destruct har_data as [| | | |s0|l|items]; simpl; try discriminate.
  - destruct (str_contains "log" s0); simpl; [discriminate|auto].
  - destruct (existsb (fun x => eq_str x "log") l); simpl; [discriminate|auto].
  - destruct (assoc "log" items) as [lg|] eqn:Hlog; simpl; [|auto].
    destruct lg as [| | | |s0|ll|litems]; simpl; try discriminate.
    + destruct (str_contains "entries" s0); simpl; [discriminate|auto].
    + destruct (existsb (fun x => eq_str x "entries") ll); simpl;
        [discriminate|auto].
    + destruct (assoc "entries" litems) as [ev|] eqn:Hent; simpl; [|auto].
      destruct ev as [| | | |s0|es|kvs]; simpl; try discriminate.
      * intros H. destruct (str_chars s0); simpl in H; [exact H|].
        rewrite Hstr in H. discriminate.
      * auto.
      * intros H. destruct kvs; simpl in H; [exact H|].
        rewrite Hstr in H. discriminate.
Qed.

Lemma get_endpoints_shaped self d m s p :
  har_shaped (har_data self) = true ->
  get_endpoints self d m s p =
  for_each (visit d m s p) [] (transactions (har_data self)).
Proof. apply (walk_shaped (visit d m s p)). Qed.

Lemma get_endpoints_loop self d m s p recs :
  get_endpoints self d m s p = Ok recs ->
  for_each (visit d m s p) [] (transactions (har_data self)) = Ok recs.
Proof. apply (walk_loop (visit d m s p)). reflexivity. Qed.

Lemma get_endpoints_in_shaped order self d m s p :
  har_shaped (har_data self) = true ->
  get_endpoints_in order self d m s p =
  for_each (visit_in order d m s p) [] (transactions (har_data self)).
Proof. apply (walk_shaped (visit_in order d m s p)). Qed.

Lemma get_endpoints_in_loop order self d m s p recs :
  get_endpoints_in order self d m s p = Ok recs ->
  for_each (visit_in order d m s p) [] (transactions (har_data self)) = Ok recs.
Proof. apply (walk_loop (visit_in order d m s p)). reflexivity. Qed.

End Documents.

Section Order.

Context {lib : PyLib}.

(** *** The order of the tests *)

Lemma visit_in_source_order d m s p entry :
  visit_in source_order d m s p entry = visit d m s p entry.
Proof.
  unfold visit_in, visit.
  destruct (get entry "request" (JDict [])) as [request|]; simpl; [|reflexivity].
  destruct (get entry "response" (JDict [])) as [response|]; simpl; [|reflexivity].
  destruct (get request "url" (JStr "")) as [u|]; simpl; [|reflexivity].
  destruct (urllib.urlparse u) as [pu|]; simpl; [|reflexivity].
  destruct (domain_mismatch d (urllib.netloc pu)); simpl; [reflexivity|].
  destruct (get request "method" (JStr "")) as [rm|]; simpl; [|reflexivity].
  destruct (method_mismatch m rm); simpl; [reflexivity|].
  destruct (get response "status" (JInt 0)) as [rs|]; simpl; [|reflexivity].
  destruct (status_mismatch s rs); simpl; [reflexivity|].
  destruct (pattern_mismatch p (urllib.path pu)) as [[|]|]; reflexivity.
Qed.

(** With the order of the code the parameterised method is the method. *)
Lemma get_endpoints_in_source_order self d m s p :
  get_endpoints_in source_order self d m s p = get_endpoints self d m s p.
Proof.
  unfold get_endpoints_in, get_endpoints.
  destruct (lacks_entries (har_data self)) as [[|]|]; simpl; try reflexivity.
  destruct (log_entries (har_data self)) as [ev|]; simpl; try reflexivity.
  destruct (iter ev) as [items|]; simpl; try reflexivity.
  generalize (@nil EndpointRecord).
  induction items as [|e rest IH]; intros acc; simpl; [reflexivity|].
  rewrite visit_in_source_order.
  destruct (visit d m s p e); simpl; [apply IH | reflexivity].
Qed.

Lemma run_tests_skip d m s p request response pu order :
  run_tests d m s p request response pu order = Ok true ->
  exists t, In t order /\
            run_test d m s p request response pu t = Ok true.
Proof.
  induction order as [|t rest IH]; simpl; intros H; [discriminate|].
  apply bind_ok in H; destruct H as (skip & Ht & H).
  destruct skip.
  - exists t. auto.
  - destruct (IH H) as (t' & Hin & Ht'). exists t'. auto.
Qed.

Lemma run_tests_keep d m s p request response pu order :
  run_tests d m s p request response pu order = Ok false ->
  forall t, In t order ->
            run_test d m s p request response pu t = Ok false.
Proof.
  induction order as [|t rest IH]; simpl; intros H t' Hin; [contradiction|].
  apply bind_ok in H; destruct H as (skip & Ht & H).
  destruct skip; [discriminate|].
  destruct Hin as [<-|Hin]; auto.
Qed.

(** In any order that runs each of the four tests, the loop skips the
    entries that fail the filters and appends the record of one that
    passes. *)
Lemma visit_in_ok order d m s p entry ro :
  (forall t, In t order) ->
  visit_in order d m s p entry = Ok ro ->
  match ro with
  | None => passes d m s p entry = false
  | Some r => passes d m s p entry = true /\ record_of entry r
  end.
Proof.
  intros Hall.
  unfold record_of, visit_in, visit, passes, pattern_accepts,
    entry_netloc, entry_path, entry_method, entry_status, entry_url.
  intros H.
  apply bind_ok in H; destruct H as (request & Hreq & H).
  apply bind_ok in H; destruct H as (response & Hresp & H).
  apply bind_ok in H; destruct H as (u & Hu & H).
  apply bind_ok in H; destruct H as (pu & Hpu & H).
  apply bind_ok in H; destruct H as (skip & Hskip & H).
  rewrite Hreq, Hresp; simpl. rewrite Hu; simpl. rewrite Hpu; simpl.
  rewrite (get_field _ _ _ Hreq), (get_field _ _ _ Hu), Hpu,
    (get_field _ _ _ Hresp).
  destruct skip.
  - inversion H; subst ro; clear H.
    apply run_tests_skip in Hskip. destruct Hskip as (t & _ & Ht).
    destruct t; simpl in Ht.
    + injection Ht as E. rewrite E. reflexivity.
    + apply bind_ok in Ht; destruct Ht as (rm & Hrm & Ht).
      injection Ht as E. rewrite (get_field _ _ _ Hrm), E.
      apply andb_false_intro1, andb_false_intro1, andb_false_intro2.
      reflexivity.
    + apply bind_ok in Ht; destruct Ht as (rs & Hrs & Ht).
      injection Ht as E. rewrite (get_field _ _ _ Hrs), E.
      apply andb_false_intro1, andb_false_intro2. reflexivity.
    + rewrite Ht. apply andb_false_intro2. reflexivity.
  - apply bind_ok in H; destruct H as (rm & Hrm & H).
    apply bind_ok in H; destruct H as (rs & Hrs & H).
    apply bind_ok in H; destruct H as (r & Hr & H).
    inversion H; subst ro; clear H.
    pose proof (run_tests_keep _ _ _ _ _ _ _ _ Hskip) as Hk.
    pose proof (Hk ByDomain (Hall _)) as Hd.
    pose proof (Hk ByMethod (Hall _)) as Hm.
    pose proof (Hk ByStatus (Hall _)) as Hs.
    pose proof (Hk ByPattern (Hall _)) as Hp.
    simpl in Hd, Hm, Hs, Hp. rewrite Hrm in Hm. rewrite Hrs in Hs.
    simpl in Hm, Hs.
    injection Hd as Ed. injection Hm as Em. injection Hs as Es.
    rewrite (get_field _ _ _ Hrm), (get_field _ _ _ Hrs).
    rewrite Ed, Em, Es, Hp, Hrm. simpl. rewrite Hrs. simpl. rewrite Hr.
    split; reflexivity.
Qed.

Lemma all_tests_in order :
  Permutation order source_order -> forall t, In t order.
Proof.
  intros Hperm t. apply (Permutation_in _ (Permutation_sym Hperm)).
  destruct t; simpl; auto.
Qed.

End Order.

Section Narrowing.

Context {lib : PyLib}.

(** *** One filter more *)

Lemma text_eq_str_eqb (t : text) (s : string) :
  text_eq_str t s = text_eqb t (Str s).
Proof. destruct t; reflexivity. Qed.

Ltac step H :=
  match type of H with
  | bind ?m _ = Ok _ =>
      let x := fresh "x" in
      let E := fresh "E" in
      destruct m as [x|] eqn:E; simpl in H |- *; [|discriminate H]
  | (if ?b then _ else _) = Ok _ =>
      let E := fresh "E" in
      destruct b eqn:E; simpl in H |- *
  end.

(** Setting a domain filter keeps, of what the loop appended without it,
    the records whose domain is the filter. *)
Lemma visit_domain_filter m s p (d : string) entry ro :
  d <> "" ->
  visit None m s p entry = Ok ro ->
  visit (Some d) m s p entry =
  Ok (match ro with
      | Some r => if text_eqb (domain r) (Str d) then Some r else None
      | None => None
      end).
Proof.
  intros Hd H. apply String.eqb_neq in Hd.
  destruct ro as [r|].
  - pose proof (visit_ok _ _ _ _ _ H) as (_ & Hrec & _).
    rewrite (visit_of_record None m s p Hrec) in H.
    rewrite (visit_of_record (Some d) m s p Hrec).
    simpl in H |- *. rewrite Hd, text_eq_str_eqb. simpl.
    destruct (text_eqb (domain r) (Str d)); simpl; [exact H|reflexivity].
  - unfold visit in H |- *.
    do 4 step H.
    match goal with
    | |- (if ?b then _ else _) = _ => destruct b; [reflexivity|exact H]
    end.
Qed.

(** Setting a nonzero status filter keeps the records whose status equals
    the filter. *)
Lemma visit_status_filter d m p (s : Z) entry ro :
  s <> 0 ->
  visit d m None p entry = Ok ro ->
  visit d m (Some s) p entry =
  Ok (match ro with
      | Some r => if eq_int (status_code r) s then Some r else None
      | None => None
      end).
Proof.
  intros Hs H. apply Z.eqb_neq in Hs.
  destruct ro as [r|].
  - pose proof (visit_ok _ _ _ _ _ H) as (_ & Hrec & _).
    rewrite (visit_of_record d m None p Hrec) in H.
    rewrite (visit_of_record d m (Some s) p Hrec).
    simpl in H |- *. rewrite Hs. simpl.
    destruct (domain_mismatch d (domain r)); [discriminate|].
    destruct (method_mismatch m (method r)); [discriminate|].
    destruct (eq_int (status_code r) s); simpl; [exact H|reflexivity].
  - unfold visit in H |- *.
    do 4 step H. step H; [reflexivity|].
    step H. step H; [reflexivity|].
    step H.
    match goal with
    | |- (if ?b then _ else _) = _ => destruct b; [reflexivity|exact H]
    end.
Qed.

(** An inactive argument is no filter: the empty string and zero are
    read as [None]. *)
Lemma visit_empty_domain m s p entry :
  visit (Some "") m s p entry = visit None m s p entry.
Proof. reflexivity. Qed.

Lemma visit_zero_status d m p entry :
  visit d m (Some 0) p entry = visit d m None p entry.
Proof. reflexivity. Qed.

Lemma visit_empty_pattern d m s entry :
  visit d m s (Some "") entry = visit d m s None entry.
Proof. reflexivity. Qed.

(** Two bodies that are equal give one walk. *)
Lemma get_endpoints_ext self d m s p d' m' s' p' :
  (forall e, visit d m s p e = visit d' m' s' p' e) ->
  get_endpoints self d m s p = get_endpoints self d' m' s' p'.
Proof.
  intros H. unfold get_endpoints.
  destruct (lacks_entries (har_data self)) as [[|]|]; simpl; try reflexivity.
  destruct (log_entries (har_data self)) as [ev|]; simpl; try reflexivity.
  destruct (iter ev) as [items|]; simpl; try reflexivity.
  generalize (@nil EndpointRecord).
  induction items as [|e rest IH]; intros acc; simpl; [reflexivity|].
  rewrite H. destruct (visit d' m' s' p' e); simpl; [apply IH|reflexivity].
Qed.

(** One filter more on the method: the walk gets to the loop under both
    settings or under neither. *)
Lemma get_endpoints_narrow (keep : EndpointRecord -> bool)
    self d m s p d' m' s' p' recs :
  (forall e ro, visit d m s p e = Ok ro ->
     visit d' m' s' p' e =
     Ok (match ro with
         | Some r => if keep r then Some r else None
         | None => None
         end)) ->
  get_endpoints self d m s p = Ok recs ->
  get_endpoints self d' m' s' p' = Ok (filter keep recs).
Proof.
  intros Hstep. unfold get_endpoints.
  destruct (lacks_entries (har_data self)) as [[|]|]; simpl;
    try discriminate.
  - intros H. inversion H. reflexivity.
  - destruct (log_entries (har_data self)) as [ev|]; simpl; try discriminate.
    destruct (iter ev) as [items|]; simpl; try discriminate.
    apply for_each_narrow. exact Hstep.
Qed.

End Narrowing.

Section Fields.

Context {lib : PyLib}.

(** The fields of an entry's record that the filters read are the
    entry's own. *)
Lemma record_fields entry r :
  record_of entry r ->
  url r = entry_url entry /\ method r = entry_method entry /\
  domain r = entry_netloc entry /\ path r = entry_path entry /\
  status_code r = entry_status entry /\
  exists parsed_url,
    urllib.urlparse (entry_url entry) = Ok parsed_url /\
    protocol r = urllib.scheme parsed_url /\
    domain r = urllib.netloc parsed_url /\
    path r = urllib.path parsed_url.
Proof.
  unfold record_of, visit, entry_netloc, entry_path, entry_method,
    entry_status, entry_url.
  intros H.
  apply bind_ok in H; destruct H as (request & Hreq & H).
  apply bind_ok in H; destruct H as (response & Hresp & H).
  apply bind_ok in H; destruct H as (u & Hu & H).
  apply bind_ok in H; destruct H as (pu & Hpu & H).
  simpl in H.
  apply bind_ok in H; destruct H as (rm & Hrm & H).
  simpl in H.
  apply bind_ok in H; destruct H as (rs & Hrs & H).
  simpl in H.
  apply bind_ok in H; destruct H as (r' & Hr & H).
  injection H as ->.
  destruct (assemble_fields _ _ _ _ _ _ _ Hr) as (Eu & Em & Esc & Ed & Ep & Es).
  rewrite (get_field _ _ _ Hreq), (get_field _ _ _ Hresp),
    (get_field _ _ _ Hu), (get_field _ _ _ Hrm), (get_field _ _ _ Hrs), Hpu.
  repeat split; try assumption.
  exists pu. repeat split; assumption.
Qed.

(** On an entry that has a record, the loop returns in any order of the
    tests, provided the pattern can be searched in the path. *)
Lemma visit_in_returns order d m s p entry r :
  record_of entry r ->
  returns (pattern_mismatch p (path r)) = true ->
  returns (visit_in order d m s p entry) = true.
Proof.
  unfold record_of, visit, visit_in. intros H Hp.
  apply bind_ok in H; destruct H as (request & Hreq & H).
  apply bind_ok in H; destruct H as (response & Hresp & H).
  apply bind_ok in H; destruct H as (u & Hu & H).
  apply bind_ok in H; destruct H as (pu & Hpu & H).
  simpl in H.
  apply bind_ok in H; destruct H as (rm & Hrm & H).
  simpl in H.
  apply bind_ok in H; destruct H as (rs & Hrs & H).
  simpl in H.
  apply bind_ok in H; destruct H as (r' & Hr & H).
  injection H as ->.
  destruct (assemble_fields _ _ _ _ _ _ _ Hr) as (_ & _ & _ & _ & Ep & _).
  rewrite Ep in Hp.
  rewrite Hreq, Hresp; simpl. rewrite Hu; simpl. rewrite Hpu; simpl.
  assert (Htests : exists skip,
            run_tests d m s p request response pu order = Ok skip).
  { induction order as [|t rest IH]; simpl; [eauto|].
    assert (Ht : exists b, run_test d m s p request response pu t = Ok b).
    { destruct t; simpl.
      - eauto.
      - rewrite Hrm. simpl. eauto.
      - rewrite Hrs. simpl. eauto.
      - destruct (pattern_mismatch p (urllib.path pu)); [eauto|discriminate]. }
    destruct Ht as (b & ->). simpl. destruct b; [eauto|exact IH]. }
  destruct Htests as (skip & ->). simpl.
  destruct skip; [reflexivity|].
  rewrite Hrm; simpl. rewrite Hrs; simpl. rewrite Hr. reflexivity.
Qed.

Lemma eq_int_zero v s : eq_int v s = true -> s <> 0 -> eq_int v 0 = false.
Proof.
  intros H Hs. apply not_true_is_false. intros H0. apply Hs.
  destruct v as [|b|n|f| | |]; simpl in *; try discriminate.
  - apply Z.eqb_eq in H, H0. lia.
  - apply Z.eqb_eq in H, H0. lia.
  - destruct f as [sg|sg| |sg mant e]; simpl in *; try discriminate.
    + apply Z.eqb_eq in H. exact H.
    + destruct (0 <=? e) eqn:He.
      * apply Z.eqb_eq in H, H0. lia.
      * apply Z.eqb_eq in H, H0. apply Z.leb_gt in He.
        assert (Hpow : 0 < 2 ^ (- e)) by (apply Z.pow_pos_nonneg; lia).
        nia.
Qed.

End Fields.

(** ** The claims *)

Section Claims.

Context {lib : PyLib}.

(** C1. Whatever the document and the filters, the sequence
    [get_endpoints] returns holds one record for each transaction entry
    that passes the filters, in the order of the entries: the records are
    related one for one, position by position, to the passing entries, each
    being the record of its entry. On a document of the HAR shape whose
    entries each have a record, and on whose paths the pattern can be
    searched, [get_endpoints] does return. *)
Theorem get_endpoints_passing_subsequence self d m s p :
  (forall recs,
     get_endpoints self d m s p = Ok recs ->
     Forall2 record_of
       (filter (passes d m s p) (transactions (har_data self))) recs /\
     List.length recs =
     List.length (filter (passes d m s p) (transactions (har_data self)))) /\
  (har_shaped (har_data self) = true ->
   Forall (fun e => (exists r, record_of e r) /\
                    returns (pattern_mismatch p (entry_path e)) = true)
          (transactions (har_data self)) ->
   exists recs, get_endpoints self d m s p = Ok recs).
Proof.
  split.
  - intros recs H. apply get_endpoints_loop in H.
    assert (F : Forall2 record_of
                  (filter (passes d m s p) (transactions (har_data self))) recs).
    { revert H. apply for_each_ok. intros e ro Hv.
      apply visit_ok in Hv. destruct ro; tauto. }
    split; [exact F|]. symmetry. exact (Forall2_length F).
  - intros Hshape Hall. rewrite (get_endpoints_shaped _ _ _ _ _ Hshape).
    apply for_each_returns. revert Hall. apply Forall_impl.
    intros e ((r & Hr) & Hp).
    rewrite (visit_of_record d m s p Hr).
    destruct (record_fields Hr) as (_ & _ & _ & Ep & _).
    rewrite Ep.
    destruct (domain_mismatch d (domain r)); [reflexivity|].
    destruct (method_mismatch m (method r)); [reflexivity|].
    destruct (status_mismatch s (status_code r)); [reflexivity|].
    destruct (pattern_mismatch p (entry_path e)) as [[|]|]; simpl;
      [reflexivity|reflexivity|discriminate].
Qed.

(** C2, amended. When the document is an object without the key [log],
    or its [log] is an object without the key [entries], [get_endpoints]
    returns the empty list under every filter and [get_unique_domains] the
    empty set; neither raises. A [log] that is [null], a boolean or a
    number is not read as missing entries, and neither is a document that
    is itself such a value: the membership tests of lines 54 and 132 raise
    [TypeError] in both methods. *)
Theorem missing_entries_give_nothing self d m s p :
  (forall items,
     har_data self = JDict items ->
     (assoc "log" items = None \/
      exists litems,
        assoc "log" items = Some (JDict litems) /\
        assoc "entries" litems = None) ->
     get_endpoints self d m s p = Ok [] /\ get_unique_domains self = Ok []) /\
  (forall items log,
     har_data self = JDict items ->
     assoc "log" items = Some log ->
     not_container log = true ->
     get_endpoints self d m s p = Raise TypeError /\
     get_unique_domains self = Raise TypeError) /\
  (not_container (har_data self) = true ->
   get_endpoints self d m s p = Raise TypeError /\
   get_unique_domains self = Raise TypeError).
Proof.
  unfold get_endpoints, get_unique_domains, lacks_entries.
  split; [|split].
  - intros items Hdata Hmissing. rewrite Hdata. simpl.
    destruct Hmissing as [Hlog|(litems & Hlog & Hent)]; rewrite Hlog; simpl.
    + split; reflexivity.
    + rewrite Hent. simpl. split; reflexivity.
  - intros items log Hdata Hlog Hscalar. rewrite Hdata. simpl.
    rewrite Hlog. simpl.
    destruct log; try discriminate; split; reflexivity.
  - intros Hscalar.
    destruct (har_data self); try discriminate; split; reflexivity.
Qed.

(** C3. A status filter of zero is no filter: the result is that of the
    call without a status filter. For a nonzero [s] the call returns, of
    the records the other filters let through, exactly those whose status
    equals [s]; none of them has status zero, so no status filter selects
    the entries of status zero. *)
Theorem status_filter_selects self d m p :
  get_endpoints self d m (Some 0) p = get_endpoints self d m None p /\
  forall s recs,
    s <> 0 ->
    get_endpoints self d m None p = Ok recs ->
    get_endpoints self d m (Some s) p =
      Ok (filter (fun r => eq_int (status_code r) s) recs) /\
    Forall (fun r => eq_int (status_code r) 0 = false)
           (filter (fun r => eq_int (status_code r) s) recs).
Proof.
  split.
  - apply get_endpoints_ext. intros e. apply visit_zero_status.
  - intros s recs Hs H. split.
    + revert H. apply get_endpoints_narrow. intros e ro.
      apply visit_status_filter. exact Hs.
    + apply Forall_forall. intros r Hin. apply filter_In in Hin.
      destruct Hin as (_ & Hr). exact (eq_int_zero _ Hr Hs).
Qed.

(** C4, amended. For a domain filter [d] that is not the empty string the
    call returns exactly the records of the call without a domain filter
    whose domain is the string [d] itself; the empty string is read as no
    filter. *)
Theorem domain_filter_selects self m s p :
  get_endpoints self (Some "") m s p = get_endpoints self None m s p /\
  forall d recs,
    d <> "" ->
    get_endpoints self None m s p = Ok recs ->
    get_endpoints self (Some d) m s p =
      Ok (filter (fun r => text_eqb (domain r) (Str d)) recs).
Proof.
  split.
  - apply get_endpoints_ext. intros e. apply visit_empty_domain.
  - intros d recs Hd. apply get_endpoints_narrow. intros e ro.
    apply visit_domain_filter. exact Hd.
Qed.

(** C6. With the default patterns [get_api_endpoints] is [get_endpoints]
    with no domain, method or status filter and the six patterns joined by
    [|] as path pattern; a list the caller supplies is joined the same way
    and used alone. *)
Theorem api_endpoints_by_alternation self :
  get_api_endpoints self None =
    get_endpoints self None None None
      (Some "/api/|/v\d+/|/rest/|/graphql|/gql|\.json$") /\
  forall api_patterns,
    get_api_endpoints self (Some api_patterns) =
    get_endpoints self None None None (Some (str_join "|" api_patterns)).
Proof. split; reflexivity. Qed.

(** C10. An empty pattern list joins to the empty string, which is read
    as no pattern: the call returns what [get_endpoints] returns without
    any filter. *)
Theorem api_endpoints_empty_list self :
  str_join "|" [] = "" /\
  get_api_endpoints self (Some []) = get_endpoints self None None None None.
Proof.
  split; [reflexivity|].
  unfold get_api_endpoints. simpl.
  apply get_endpoints_ext. intros e. apply visit_empty_pattern.
Qed.

(** C5, amended. Filtering is idempotent: the records [get_endpoints]
    returns all pass the four tests read on their own fields, so filtering
    the output once more by them changes nothing. The order of the four
    tests does not change the sequence returned: the loop run with the
    tests in the order of the code is [get_endpoints], any two orders that
    return give the same sequence, and every order returns what
    [get_endpoints] returns on a document of the HAR shape whose entries
    each have a record and on whose paths the pattern can be searched.
    Whether a call returns at all is not free of the order: a test that
    raises is reached in one order and skipped in another. *)
Theorem filtering_idempotent_any_order self d m s p :
  (forall recs,
     get_endpoints self d m s p = Ok recs ->
     filter (record_passes d m s p) recs = recs) /\
  get_endpoints_in source_order self d m s p = get_endpoints self d m s p /\
  (forall order order' recs recs',
     Permutation order source_order ->
     Permutation order' source_order ->
     get_endpoints_in order self d m s p = Ok recs ->
     get_endpoints_in order' self d m s p = Ok recs' ->
     recs' = recs) /\
  (har_shaped (har_data self) = true ->
   Forall (fun e => (exists r, record_of e r) /\
                    returns (pattern_mismatch p (entry_path e)) = true)
          (transactions (har_data self)) ->
   exists recs,
     get_endpoints self d m s p = Ok recs /\
     forall order,
       Permutation order source_order ->
       get_endpoints_in order self d m s p = Ok recs).
Proof.
  assert (Horder : forall order order' recs recs',
            Permutation order source_order ->
            Permutation order' source_order ->
            get_endpoints_in order self d m s p = Ok recs ->
            get_endpoints_in order' self d m s p = Ok recs' ->
            recs' = recs).
  { intros order order' recs recs' Hperm Hperm' H H'.
    apply get_endpoints_in_loop in H. apply get_endpoints_in_loop in H'.
    assert (F : Forall2 record_of
                  (filter (passes d m s p) (transactions (har_data self))) recs).
    { revert H. apply for_each_ok. intros e ro Hv.
      eapply visit_in_ok in Hv; [exact Hv|exact (all_tests_in Hperm)]. }
    assert (F' : Forall2 record_of
                   (filter (passes d m s p) (transactions (har_data self))) recs').
    { revert H'. apply for_each_ok. intros e ro Hv.
      eapply visit_in_ok in Hv; [exact Hv|exact (all_tests_in Hperm')]. }
    clear H H'. revert recs' F'.
    induction F as [|e r es rs Hr _ IH]; intros recs' F'; inversion F'; subst.
    - reflexivity.
    - f_equal; [|apply IH; assumption].
      unfold record_of in *. congruence. }
  split; [|split; [|split; [exact Horder|]]].
  - intros recs H. apply get_endpoints_loop in H.
    assert (F : Forall2 (fun e r => record_passes d m s p r = true)
                  (filter (passes d m s p) (transactions (har_data self))) recs).
    { revert H. apply for_each_ok. intros e ro Hv.
      apply visit_ok in Hv. destruct ro; tauto. }
    clear H Horder. induction F as [|e r es rs Hr _ IH]; [reflexivity|].
    simpl. rewrite Hr, IH. reflexivity.
  - apply get_endpoints_in_source_order.
  - intros Hshape Hall.
    assert (Hret : forall order, exists recs,
               get_endpoints_in order self d m s p = Ok recs).
    { intros order. rewrite (get_endpoints_in_shaped _ _ _ _ _ _ Hshape).
      apply for_each_returns. revert Hall. apply Forall_impl.
      intros e ((r & Hr) & Hp). apply (visit_in_returns _ _ _ _ _ Hr).
      destruct (record_fields Hr) as (_ & _ & _ & Ep & _).
      rewrite Ep. exact Hp. }
    destruct (Hret source_order) as (recs & Hsrc). exists recs. split.
    + rewrite <- get_endpoints_in_source_order. exact Hsrc.
    + intros order Hperm. destruct (Hret order) as (recs' & Hin).
      rewrite Hin. f_equal.
      exact (Horder source_order order recs recs' (Permutation_refl _) Hperm
               Hsrc Hin).
Qed.

(** C7, amended. An entry whose request URL is missing or empty parses
    without an exception, and the scheme, authority and path of its record
    are the empty string. The path pattern is searched in the path of the
    record and nowhere else, by [re.search]. A URL that [urlparse] rejects
    is not turned into empty components: the exception leaves
    [get_endpoints]. *)
Theorem url_parsing_in_extraction :
  (forall entry,
     entry_url entry = JStr "" ->
     urllib.urlparse (entry_url entry) =
     Ok (urllib.mkParseResult (Str "") (Str "") (Str "") (Str "") (Str "")
           (Str ""))) /\
  (forall d m s p entry r,
     entry_url entry = JStr "" ->
     visit d m s p entry = Ok (Some r) ->
     protocol r = Str "" /\ domain r = Str "" /\ path r = Str "") /\
  (forall pat entry r,
     pat <> "" ->
     record_of entry r ->
     visit None None None (Some pat) entry =
     (found <- re_search pat (path r) ;;
      Ok (if found then Some r else None))) /\
  (forall self d m s p entry rest request response u err,
     har_shaped (har_data self) = true ->
     transactions (har_data self) = entry :: rest ->
     get entry "request" (JDict []) = Ok request ->
     get entry "response" (JDict []) = Ok response ->
     get request "url" (JStr "") = Ok u ->
     urllib.urlparse u = Raise err ->
     get_endpoints self d m s p = Raise err).
Proof.
  repeat split.
  - intros entry ->. reflexivity.
  - apply visit_ok in H0. destruct H0 as (_ & Hrec & _).
    destruct (record_fields Hrec) as (_ & _ & _ & _ & _ & pu & Hpu & E & _).
    rewrite H in Hpu. injection Hpu as <-. exact E.
  - apply visit_ok in H0. destruct H0 as (_ & Hrec & _).
    destruct (record_fields Hrec) as (_ & _ & _ & _ & _ & pu & Hpu & _ & E & _).
    rewrite H in Hpu. injection Hpu as <-. exact E.
  - apply visit_ok in H0. destruct H0 as (_ & Hrec & _).
    destruct (record_fields Hrec) as (_ & _ & _ & _ & _ & pu & Hpu & _ & _ & E).
    rewrite H in Hpu. injection Hpu as <-. exact E.
  - intros pat entry r Hpat Hrec.
    rewrite (visit_of_record None None None (Some pat) Hrec). simpl.
    apply String.eqb_neq in Hpat. rewrite Hpat.
    destruct (re_search pat (path r)) as [[|]|]; reflexivity.
  - intros self d m s p entry rest request response u err Hshape Htx Hreq
      Hresp Hu Hurl.
    rewrite (get_endpoints_shaped _ _ _ _ _ Hshape), Htx, for_each_cons.
    unfold visit. rewrite Hreq, Hresp. simpl. rewrite Hu. simpl.
    rewrite Hurl. reflexivity.
Qed.



End Claims.

(** ** Two properties the specification lists for testing *)

Section Further.

Context {lib : PyLib}.

(** The domain of a record is the authority of its entry's URL, as
    [urlparse] gives it; scheme and path likewise. *)
Theorem record_domain_is_authority d m s p entry r :
  visit d m s p entry = Ok (Some r) ->
  exists parsed_url,
    urllib.urlparse (entry_url entry) = Ok parsed_url /\
    domain r = urllib.netloc parsed_url /\
    protocol r = urllib.scheme parsed_url /\
    path r = urllib.path parsed_url /\
    url r = entry_url entry.
Proof.
  intros H. apply visit_ok in H. destruct H as (_ & Hrec & _).
  destruct (record_fields Hrec) as (Eu & _ & _ & _ & _ & pu & Hpu & Es & Ed & Ep).
  exists pu. repeat split; assumption.
Qed.

Lemma set_add_in x y domains :
  In y (set_add x domains) <-> y = x \/ In y domains.
Proof.
  unfold set_add.
  destruct (existsb (text_eqb x) domains) eqn:E.
  - split; [auto|]. intros [->|Hin]; [|exact Hin].
    apply existsb_exists in E. destruct E as (z & Hz & Hxz).
    apply text_eqb_eq in Hxz. subst z. exact Hz.
  - rewrite in_app_iff. simpl. intuition.
Qed.

Lemma set_add_nodup x domains : NoDup domains -> NoDup (set_add x domains).
Proof.
  intros Hnd. unfold set_add.
  destruct (existsb (text_eqb x) domains) eqn:E; [exact Hnd|].
  apply NoDup_app; [exact Hnd | repeat constructor; intros [] | ].
  intros y Hy [Hxy|[]]. subst y.
  assert (Hex : existsb (text_eqb x) domains = true).
  { apply existsb_exists. exists x. split; [exact Hy|].
    apply text_eqb_eq. reflexivity. }
  congruence.
Qed.

Lemma collect_domains_spec entries : forall domains out,
  collect_domains domains entries = Ok out ->
  (NoDup domains -> NoDup out) /\
  (forall t, In t out <->
             In t domains \/ exists e, In e entries /\ entry_netloc e = t).
Proof.
  induction entries as [|e rest IH]; intros domains out H.
  - simpl in H. injection H as <-. split; [auto|].
    intros t. split; [auto|]. intros [Hin|(e & [] & _)]. exact Hin.
  - simpl in H.
    apply bind_ok in H; destruct H as (request & Hreq & H).
    apply bind_ok in H; destruct H as (u & Hu & H).
    apply bind_ok in H; destruct H as (pu & Hpu & H).
    assert (Enet : entry_netloc e = urllib.netloc pu).
    { unfold entry_netloc, entry_url.
      rewrite (get_field _ _ _ Hreq), (get_field _ _ _ Hu), Hpu.
      reflexivity. }
    destruct (IH _ _ H) as (Hnd & Hin). split.
    + intros Hd. apply Hnd. apply set_add_nodup. exact Hd.
    + intros t. rewrite Hin, set_add_in. split.
      * intros [[->|Hd]|(e' & He' & Ht)].
        -- right. exists e. split; [left; reflexivity|exact Enet].
        -- left. exact Hd.
        -- right. exists e'. split; [right; exact He'|exact Ht].
      * intros [Hd|(e' & [<-|He'] & Ht)].
        -- left. right. exact Hd.
        -- left. left. rewrite <- Ht. exact Enet.
        -- right. exists e'. split; assumption.
Qed.

(** The domains [get_unique_domains] returns are the authorities of the
    transaction entries, each once, whatever the filters would say. *)
Theorem unique_domains_are_authorities self domains :
  har_shaped (har_data self) = true ->
  get_unique_domains self = Ok domains ->
  NoDup domains /\
  forall t,
    In t domains <->
    exists e, In e (transactions (har_data self)) /\ entry_netloc e = t.
Proof.
  unfold get_unique_domains, log_entries, transactions, har_shaped.
  destruct (har_data self) as [| | | | | |items]; try discriminate.
  simpl.
  assert (Hnone : forall out : list text, Ok (@nil text) = Ok out ->
            NoDup out /\
            forall t, In t out <-> exists e : json, In e [] /\ entry_netloc e = t).
  { intros out [= <-]. split; [constructor|].
    intros t. split; [intros []|intros (e & [] & _)]. }
  destruct (assoc "log" items) as [lg|] eqn:Hlog; simpl.
  2: { intros _. apply Hnone. }
  destruct lg as [| | | | | |litems]; try discriminate.
  simpl. destruct (assoc "entries" litems) as [ev|] eqn:Hent; simpl.
  2: { intros _. apply Hnone. }
  destruct ev as [| | | | |es|]; try discriminate.
  simpl. intros _ H.
  destruct (collect_domains_spec _ _ H) as (Hnd & Hin).
  split; [apply Hnd; constructor|].
  intros t. rewrite Hin. simpl. tauto.
Qed.

End Further.

(** ** The claims on the fixture *)

Section Instances.

#[local] Existing Instance mini.lib.

Lemma get_endpoints_passing_subsequence_witness :
  Forall2 record_of
    (filter (passes (Some "api.example.com") None None (Some "/v\d+/"))
            (transactions fixture.har))
    [fixture.users_record] /\
  exists recs,
    get_endpoints fixture.parser (Some "api.example.com") None None
      (Some "/v\d+/") = Ok recs.
Proof.
  destruct (get_endpoints_passing_subsequence fixture.parser
              (Some "api.example.com") None None (Some "/v\d+/"))
    as [Hsub Hret].
  split.
  - apply (Hsub [fixture.users_record]). vm_compute. reflexivity.
  - apply Hret; [reflexivity|].
    repeat constructor.
    + exists fixture.users_record. vm_compute. reflexivity.
    + exists fixture.login_record. vm_compute. reflexivity.
Defined.

Lemma missing_entries_give_nothing_witness :
  (get_endpoints (mkHarParser "empty.har" fixture.without_entries)
     (Some "example.com") None (Some 200) (Some "/api/") = Ok [] /\
   get_unique_domains (mkHarParser "empty.har" fixture.without_entries)
   = Ok []) /\
  (get_endpoints (mkHarParser "empty.har" (JDict [])) None None None None
   = Ok [] /\
   get_unique_domains (mkHarParser "empty.har" (JDict [])) = Ok []) /\
  (get_endpoints (mkHarParser "odd.har" (JInt 7)) None None None None
   = Raise TypeError /\
   get_unique_domains (mkHarParser "odd.har" (JInt 7)) = Raise TypeError).
Proof.
  split; [|split].
  - apply (proj1 (@missing_entries_give_nothing _
                    (mkHarParser "empty.har" fixture.without_entries)
                    (Some "example.com") None (Some 200) (Some "/api/"))
             [("log", JDict [("version", JStr "1.2")])]).
    + reflexivity.
    + right. exists [("version", JStr "1.2")]. split; reflexivity.
  - apply (proj1 (@missing_entries_give_nothing _
                    (mkHarParser "empty.har" (JDict []))
                    None None None None) []).
    + reflexivity.
    + left. reflexivity.
  - apply (proj2 (proj2 (@missing_entries_give_nothing _
                           (mkHarParser "odd.har" (JInt 7))
                           None None None None))).
    reflexivity.
Defined.

(** C2, as stated, fails on a capture whose [log] is [null]: the file
    loads, its [log] has no key [entries], and both methods raise
    [TypeError] where the claim has them return nothing. *)
Lemma null_log_is_not_missing_entries :
  exists parser,
    __init__ (fs_write fixture.empty "odd.har" fixture.null_log_text)
      "odd.har" = Ok parser /\
    har_data parser = fixture.null_log /\
    has_key "entries" (field (har_data parser) "log" JNull) = false /\
    get_endpoints parser None None None None = Raise TypeError /\
    get_unique_domains parser = Raise TypeError.
Proof.
  exists (mkHarParser "odd.har" fixture.null_log).
  repeat split; vm_compute; reflexivity.
Qed.

Lemma status_filter_selects_witness :
  get_endpoints fixture.parser None (Some "POST") (Some 200) None =
  Ok [fixture.login_record].
Proof.
  destruct (status_filter_selects fixture.parser None (Some "POST") None)
    as [_ Hsel].
  destruct (Hsel 200 [fixture.login_record]) as [H _].
  - discriminate.
  - vm_compute. reflexivity.
  - exact H.
Defined.

Lemma domain_filter_selects_witness :
  get_endpoints fixture.parser (Some "example.com") None None None =
  Ok [fixture.login_record].
Proof.
  destruct (domain_filter_selects fixture.parser None None None) as [_ Hsel].
  apply (Hsel "example.com" [fixture.users_record; fixture.login_record]).
  - discriminate.
  - vm_compute. reflexivity.
Defined.

(** C4, as stated, fails on the empty string: the call with the domain
    filter [""] returns both records of the fixture, and neither has the
    empty string as its domain. *)
Lemma domain_filter_empty_string :
  exists recs,
    get_endpoints fixture.parser None None None None = Ok recs /\
    get_endpoints fixture.parser (Some "") None None None <>
    Ok (filter (fun r => text_eqb (domain r) (Str "")) recs).
Proof.
  exists [fixture.users_record; fixture.login_record]. split.
  - vm_compute. reflexivity.
  - vm_compute. discriminate.
Qed.

Lemma filtering_idempotent_any_order_witness :
  filter (record_passes (Some "api.example.com") (Some "GET") (Some 200)
                        (Some "/v\d+/"))
         [fixture.users_record] = [fixture.users_record] /\
  exists recs,
    get_endpoints fixture.parser (Some "api.example.com") (Some "GET")
      (Some 200) (Some "/v\d+/") = Ok recs /\
    get_endpoints_in [ByPattern; ByStatus; ByMethod; ByDomain] fixture.parser
      (Some "api.example.com") (Some "GET") (Some 200) (Some "/v\d+/")
    = Ok recs.
Proof.
  destruct (@filtering_idempotent_any_order _ fixture.parser
              (Some "api.example.com") (Some "GET") (Some 200)
              (Some "/v\d+/")) as (Hidem & _ & _ & Hret).
  split.
  - apply Hidem. vm_compute. reflexivity.
  - destruct Hret as (recs & Hsrc & Hall).
    + reflexivity.
    + repeat constructor.
      * exists fixture.users_record. vm_compute. reflexivity.
      * exists fixture.login_record. vm_compute. reflexivity.
    + exists recs. split; [exact Hsrc|].
      apply Hall. apply Permutation_sym. exact (Permutation_rev source_order).
Defined.

(** C5, as stated, fails on a pattern that does not compile: with the
    tests in the order of the code the domain test skips both entries of
    the fixture and the call returns the empty list; with the pattern test
    first the call raises [re.error]. *)
Lemma pattern_first_order_raises :
  Permutation [ByPattern; ByStatus; ByMethod; ByDomain] source_order /\
  get_endpoints fixture.parser (Some "other.example") None None (Some "(")
  = Ok [] /\
  get_endpoints_in [ByPattern; ByStatus; ByMethod; ByDomain] fixture.parser
    (Some "other.example") None None (Some "(") = Raise re_error.
Proof.
  split; [|split].
  - apply Permutation_sym. exact (Permutation_rev source_order).
  - vm_compute. reflexivity.
  - vm_compute. reflexivity.
Qed.

Lemma url_parsing_in_extraction_witness :
  visit None None None (Some "^/v\d+/users$") fixture.users_entry =
  Ok (Some fixture.users_record) /\
  get_endpoints
    (mkHarParser "test.har"
       (fixture.document [fixture.malformed_entry; fixture.users_entry]))
    None None None None = Raise (ValueError "Invalid IPv6 URL").
Proof.
  destruct (@url_parsing_in_extraction mini.lib) as (_ & _ & Hpat & Hraise).
  split.
  - rewrite (Hpat "^/v\d+/users$" fixture.users_entry fixture.users_record).
    + vm_compute. reflexivity.
    + discriminate.
    + vm_compute. reflexivity.
  - eapply Hraise with (entry := fixture.malformed_entry);
      try reflexivity.
Defined.

(** C7, as stated, fails on a URL with an unclosed bracket: [urlparse]
    raises [ValueError], and so does [get_endpoints], whatever the other
    entries are. *)
Lemma malformed_url_raises :
  get_endpoints
    (mkHarParser "test.har"
       (fixture.document [fixture.users_entry; fixture.malformed_entry]))
    None None None None = Raise (ValueError "Invalid IPv6 URL").
Proof. vm_compute. reflexivity. Qed.



Lemma record_domain_is_authority_witness :
  exists parsed_url,
    urllib.urlparse (entry_url fixture.login_entry) = Ok parsed_url /\
    urllib.netloc parsed_url = Str "example.com" /\
    domain fixture.login_record = urllib.netloc parsed_url.
Proof.
  destruct (@record_domain_is_authority _ None (Some "POST") (Some 200) None
              fixture.login_entry fixture.login_record)
    as (pu & Hpu & Hd & _).
  - vm_compute. reflexivity.
  - exists pu. repeat split; try assumption.
    rewrite <- Hd. reflexivity.
Defined.

Lemma unique_domains_are_authorities_witness :
  NoDup [Str "api.example.com"; Str "example.com"] /\
  (In (Str "example.com") [Str "api.example.com"; Str "example.com"] <->
   exists e, In e (transactions fixture.har) /\
             entry_netloc e = Str "example.com").
Proof.
  destruct (@unique_domains_are_authorities fixture.parser
              [Str "api.example.com"; Str "example.com"])
    as (Hnd & Hin).
  - reflexivity.
  - vm_compute. reflexivity.
  - split; [exact Hnd|apply Hin].
Defined.

End Instances.

(** ** How the operations compose *)

Section Composition.

Context {lib : PyLib}.

(** The test of line 54 and the lookup of the entries are the same for
    every body of the loop, and [get_unique_domains] makes them too: a
    document without entries gives the empty result, a document of the
    wrong type the same exception, and otherwise both loop over the same
    items. *)
Lemma header_cases self :
  ((forall body, walk body (har_data self) = Ok []) /\
   get_unique_domains self = Ok []) \/
  (exists e,
     (forall body, walk body (har_data self) = Raise e) /\
     get_unique_domains self = Raise e) \/
  (exists items,
     (forall body, walk body (har_data self) = for_each body [] items) /\
     get_unique_domains self = collect_domains [] items).
Proof.
  unfold walk, get_unique_domains, lacks_entries, log_entries.
  destruct (contains "log" (har_data self)) as [[|]|e] eqn:Hlog; simpl.
  - destruct (getitem (har_data self) "log") as [lg|e] eqn:Hget; simpl.
    + destruct (contains "entries" lg) as [[|]|e] eqn:Hent; simpl.
      * destruct (getitem lg "entries") as [ev|e]; simpl.
        -- destruct (iter ev) as [items|e]; simpl.
           ++ right. right. exists items. split; reflexivity.
           ++ right. left. exists e. split; reflexivity.
        -- right. left. exists e. split; reflexivity.
      * left. split; reflexivity.
      * right. left. exists e. split; reflexivity.
    + right. left. exists e. split; reflexivity.
  - left. split; reflexivity.
  - right. left. exists e. split; reflexivity.
Qed.

(** *** The unfiltered extraction *)

Lemma visit_unfiltered_some entry ro :
  visit None None None None entry = Ok ro -> exists r, ro = Some r.
Proof.
  intros H. destruct ro as [r|]; [eauto|].
  apply visit_ok in H. discriminate H.
Qed.

Lemma record_passes_chain d m s p r :
  (if domain_mismatch d (domain r) then Ok None
   else if method_mismatch m (method r) then Ok None
   else if status_mismatch s (status_code r) then Ok None
   else skip <- pattern_mismatch p (path r) ;;
        if skip then Ok None else Ok (Some r)) =
  if negb (domain_mismatch d (domain r)) &&
     negb (method_mismatch m (method r)) &&
     negb (status_mismatch s (status_code r))
  then skip <- pattern_mismatch p (path r) ;;
       Ok (if skip then None else Some r)
  else Ok None.
Proof.
  destruct (domain_mismatch d (domain r)); [reflexivity|].
  destruct (method_mismatch m (method r)); [reflexivity|].
  destruct (status_mismatch s (status_code r)); [reflexivity|].
  simpl. destruct (pattern_mismatch p (path r)) as [[|]|]; reflexivity.
Qed.

(** With filters, the loop keeps of an entry's record what the four tests
    on the record say. *)
Lemma visit_filtered_outcome d m s p entry r ro :
  record_of entry r ->
  visit d m s p entry = Ok ro ->
  ro = if record_passes d m s p r then Some r else None.
Proof.
  intros Hrec. rewrite (visit_of_record d m s p Hrec), record_passes_chain.
  unfold record_passes, pattern_accepts.
  destruct (negb (domain_mismatch d (domain r)) &&
            negb (method_mismatch m (method r)) &&
            negb (status_mismatch s (status_code r))); simpl.
  - destruct (pattern_mismatch p (path r)) as [[|]|]; simpl;
      intros H; try discriminate; injection H as <-; reflexivity.
  - intros H. injection H as <-. reflexivity.
Qed.

Lemma visit_filtered_returns d m s p entry r :
  record_of entry r ->
  returns (pattern_mismatch p (path r)) = true ->
  visit d m s p entry = Ok (if record_passes d m s p r then Some r else None).
Proof.
  intros Hrec Hp. rewrite (visit_of_record d m s p Hrec), record_passes_chain.
  unfold record_passes, pattern_accepts.
  destruct (negb (domain_mismatch d (domain r)) &&
            negb (method_mismatch m (method r)) &&
            negb (status_mismatch s (status_code r))); simpl;
    [|reflexivity].
  destruct (pattern_mismatch p (path r)) as [[|]|]; simpl;
    try reflexivity; discriminate.
Qed.

Lemma for_each_unfiltered_cons e rest all :
  for_each (visit None None None None) [] (e :: rest) = Ok all ->
  exists r l,
    all = r :: l /\ record_of e r /\
    for_each (visit None None None None) [] rest = Ok l.
Proof.
  intros H. rewrite for_each_cons in H.
  apply bind_ok in H; destruct H as (ro & Hv & H).
  apply bind_ok in H; destruct H as (l & Hl & H).
  destruct (visit_unfiltered_some _ Hv) as (r & ->).
  injection H as <-. exists r, l. repeat split; assumption.
Qed.

Lemma for_each_select d m s p entries : forall all recs,
  for_each (visit None None None None) [] entries = Ok all ->
  for_each (visit d m s p) [] entries = Ok recs ->
  recs = filter (record_passes d m s p) all.
Proof.
  induction entries as [|e rest IH]; intros all recs Hall Hrecs.
  - simpl in *. injection Hall as <-. injection Hrecs as <-. reflexivity.
  - apply for_each_unfiltered_cons in Hall.
    destruct Hall as (r & l & -> & Hrec & Hl).
    rewrite for_each_cons in Hrecs.
    apply bind_ok in Hrecs; destruct Hrecs as (ro & Hv & Hrecs).
    apply bind_ok in Hrecs; destruct Hrecs as (l' & Hl' & Hrecs).
    injection Hrecs as <-.
    rewrite (visit_filtered_outcome _ _ _ _ Hrec Hv), (IH _ _ Hl Hl').
    simpl. destruct (record_passes d m s p r); reflexivity.
Qed.

Lemma for_each_select_returns d m s p entries : forall all,
  for_each (visit None None None None) [] entries = Ok all ->
  Forall (fun r => returns (pattern_mismatch p (path r)) = true) all ->
  for_each (visit d m s p) [] entries =
  Ok (filter (record_passes d m s p) all).
Proof.
  induction entries as [|e rest IH]; intros all Hall Hp.
  - simpl in *. injection Hall as <-. reflexivity.
  - apply for_each_unfiltered_cons in Hall.
    destruct Hall as (r & l & -> & Hrec & Hl).
    inversion Hp as [|? ? Hr Hrest]; subst.
    rewrite for_each_cons, (visit_filtered_returns d m s _ Hrec Hr),
      (IH _ Hl Hrest).
    simpl. destruct (record_passes d m s p r); reflexivity.
Qed.

(** Every filtered extraction is the unfiltered one, filtered: when the
    call without filters returns [all], a call with filters returns the
    records of [all] that pass the four tests on their own fields, in
    order. It does return when the pattern can be searched in the path of
    every record. *)
Theorem filters_select_from_unfiltered self d m s p all :
  get_endpoints self None None None None = Ok all ->
  (forall recs,
     get_endpoints self d m s p = Ok recs ->
     recs = filter (record_passes d m s p) all) /\
  (Forall (fun r => returns (pattern_mismatch p (path r)) = true) all ->
   get_endpoints self d m s p = Ok (filter (record_passes d m s p) all)).
Proof.
  change (get_endpoints self None None None None)
    with (walk (visit None None None None) (har_data self)).
  change (get_endpoints self d m s p)
    with (walk (visit d m s p) (har_data self)).
  destruct (header_cases self)
    as [(H & _)|[(e & H & _)|(items & H & _)]]; rewrite !H.
  - intros Hall. injection Hall as <-. split.
    + intros recs Hr. injection Hr as <-. reflexivity.
    + reflexivity.
  - discriminate.
  - intros Hall. split.
    + intros recs. apply for_each_select. exact Hall.
    + apply for_each_select_returns. exact Hall.
Qed.

(** *** Domains *)

Lemma collect_domains_of_records entries : forall all domains,
  for_each (visit None None None None) [] entries = Ok all ->
  collect_domains domains entries =
  Ok (fold_left (fun ds r => set_add (domain r) ds) all domains).
Proof.
  induction entries as [|e rest IH]; intros all domains Hall.
  - simpl in *. injection Hall as <-. reflexivity.
  - apply for_each_unfiltered_cons in Hall.
    destruct Hall as (r & l & -> & Hrec & Hl).
    simpl. unfold record_of, visit in Hrec.
    apply bind_ok in Hrec; destruct Hrec as (request & Hreq & Hrec).
    apply bind_ok in Hrec; destruct Hrec as (response & Hresp & Hrec).
    apply bind_ok in Hrec; destruct Hrec as (u & Hu & Hrec).
    apply bind_ok in Hrec; destruct Hrec as (pu & Hpu & Hrec).
    simpl in Hrec.
    apply bind_ok in Hrec; destruct Hrec as (rm & Hrm & Hrec).
    simpl in Hrec.
    apply bind_ok in Hrec; destruct Hrec as (rs & Hrs & Hrec).
    simpl in Hrec.
    apply bind_ok in Hrec; destruct Hrec as (r' & Hr & Hrec).
    injection Hrec as ->.
    destruct (assemble_fields _ _ _ _ _ _ _ Hr) as (_ & _ & _ & Ed & _).
    rewrite Hreq; simpl. rewrite Hu; simpl. rewrite Hpu; simpl.
    rewrite <- Ed. apply IH. exact Hl.
Qed.

(** The domains listed are those of the unfiltered extraction: when
    [get_endpoints] without filters returns, [get_unique_domains] returns
    the domains of its records, each once, in the order in which they
    first occur. *)
Theorem unique_domains_of_endpoints self all :
  get_endpoints self None None None None = Ok all ->
  get_unique_domains self = Ok (domains_of all).
Proof.
  change (get_endpoints self None None None None)
    with (walk (visit None None None None) (har_data self)).
  destruct (header_cases self)
    as [(H & Hd)|[(e & H & Hd)|(items & H & Hd)]]; rewrite H, Hd.
  - intros Hall. injection Hall as <-. reflexivity.
  - discriminate.
  - apply collect_domains_of_records.
Qed.

(** *** A pattern that does not compile *)

Lemma for_each_invalid_pattern d m s pat entries : forall all,
  pat <> "" ->
  re_compile pat = None ->
  for_each (visit None None None None) [] entries = Ok all ->
  for_each (visit d m s (Some pat)) [] entries =
  if existsb (record_passes d m s None) all then Raise re_error else Ok [].
Proof.
  intros all Hpat Hc. revert all.
  apply String.eqb_neq in Hpat.
  induction entries as [|e rest IH]; intros all Hall.
  - simpl in *. injection Hall as <-. reflexivity.
  - apply for_each_unfiltered_cons in Hall.
    destruct Hall as (r & l & -> & Hrec & Hl).
    rewrite for_each_cons, (visit_of_record d m s (Some pat) Hrec),
      record_passes_chain.
    simpl existsb. unfold record_passes at 1, pattern_accepts. simpl.
    rewrite Hpat. unfold re_search. rewrite Hc.
    destruct (negb (domain_mismatch d (domain r)) &&
              negb (method_mismatch m (method r)) &&
              negb (status_mismatch s (status_code r))); simpl.
    + reflexivity.
    + rewrite (IH _ Hl).
      destruct (existsb (record_passes d m s None) l); reflexivity.
Qed.

(** A pattern that does not compile is an error only when a record gets
    to the path test: the call raises [re.error] when some record passes
    the domain, method and status tests, and returns the empty list
    otherwise. *)
Theorem invalid_pattern_raises_when_reached self d m s pat all :
  pat <> "" ->
  re_compile pat = None ->
  get_endpoints self None None None None = Ok all ->
  get_endpoints self d m s (Some pat) =
  if existsb (record_passes d m s None) all then Raise re_error else Ok [].
Proof.
  intros Hpat Hc.
  change (get_endpoints self None None None None)
    with (walk (visit None None None None) (har_data self)).
  change (get_endpoints self d m s (Some pat))
    with (walk (visit d m s (Some pat)) (har_data self)).
  destruct (header_cases self)
    as [(H & _)|[(e & H & _)|(items & H & _)]]; rewrite !H.
  - intros Hall. injection Hall as <-. reflexivity.
  - discriminate.
  - apply for_each_invalid_pattern; assumption.
Qed.

(** *** The first exception *)

Lemma for_each_raises body entries e :
  for_each body [] entries = Raise e <->
  exists pre bad post,
    entries = (pre ++ bad :: post)%list /\
    Forall (fun x => returns (body x) = true) pre /\
    body bad = Raise e.
Proof.
  induction entries as [|x rest IH].
  - simpl. split; [discriminate|].
    intros (pre & bad & post & Heq & _). destruct pre; discriminate.
  - rewrite for_each_cons. split.
    + destruct (body x) as [ro|e'] eqn:Hx; simpl.
      * destruct (for_each body [] rest) as [l|e'] eqn:Hrest; simpl;
          [discriminate|].
        intros H. injection H as ->.
        destruct (proj1 IH eq_refl) as (pre & bad & post & -> & Hpre & Hbad).
        exists (x :: pre), bad, post. repeat split; try assumption.
        constructor; [rewrite Hx; reflexivity|assumption].
      * intros H. injection H as ->.
        exists [], x, rest. repeat split; [constructor|assumption].
    + intros (pre & bad & post & Heq & Hpre & Hbad).
      destruct pre as [|y pre]; simpl in Heq; injection Heq as -> ->.
      * rewrite Hbad. reflexivity.
      * inversion Hpre as [|? ? Hy Hpre']; subst.
        destruct (body y) as [ro|]; [|discriminate]. simpl.
        assert (Hr : for_each body [] (pre ++ bad :: post) = Raise e).
        { apply IH. exists pre, bad, post. auto. }
        rewrite Hr. reflexivity.
Qed.

(** One entry that cannot be processed fails the whole call: on a
    document of the HAR shape, [get_endpoints] raises [e] exactly when the
    turn of some entry raises [e] and the turns of the entries before it
    return; the records of those entries are not returned. *)
Theorem first_failing_entry_aborts self d m s p e :
  har_shaped (har_data self) = true ->
  (get_endpoints self d m s p = Raise e <->
   exists pre bad post,
     transactions (har_data self) = (pre ++ bad :: post)%list /\
     Forall (fun x => returns (visit d m s p x) = true) pre /\
     visit d m s p bad = Raise e).
Proof.
  intros Hshape. rewrite (get_endpoints_shaped _ _ _ _ _ Hshape).
  apply for_each_raises.
Qed.

End Composition.

(** ** The fields of a record *)

Section RecordFields.

Context {lib : PyLib}.

Lemma record_of_parts entry r :
  record_of entry r ->
  exists request response u pu rm rs,
    get entry "request" (JDict []) = Ok request /\
    get entry "response" (JDict []) = Ok response /\
    get request "url" (JStr "") = Ok u /\
    urllib.urlparse u = Ok pu /\
    get request "method" (JStr "") = Ok rm /\
    get response "status" (JInt 0) = Ok rs /\
    assemble entry request response u pu rm rs = Ok r.
Proof.
  unfold record_of, visit. intros H.
  apply bind_ok in H; destruct H as (request & Hreq & H).
  apply bind_ok in H; destruct H as (response & Hresp & H).
  apply bind_ok in H; destruct H as (u & Hu & H).
  apply bind_ok in H; destruct H as (pu & Hpu & H).
  simpl in H.
  apply bind_ok in H; destruct H as (rm & Hrm & H).
  simpl in H.
  apply bind_ok in H; destruct H as (rs & Hrs & H).
  simpl in H.
  apply bind_ok in H; destruct H as (r' & Hr & H).
  injection H as ->.
  exists request, response, u, pu, rm, rs. repeat split; assumption.
Qed.

Lemma assemble_rest entry request response u pu rm rs r :
  assemble entry request response u pu rm rs = Ok r ->
  extract_post_data request = Ok (post_data r) /\
  get response "bodySize" (JInt 0) = Ok (response_size r) /\
  get entry "time" (JInt 0) = Ok (time r) /\
  (exists items,
     (qs <- get request "queryString" (JList []) ;; iter qs) = Ok items /\
     flatten [] items = Ok (query_params r)) /\
  (exists items,
     (hs <- get request "headers" (JList []) ;; iter hs) = Ok items /\
     flatten [] items = Ok (headers r)).
Proof.
  unfold assemble. intros H.
  apply bind_ok in H; destruct H as (qs & Hqs & H).
  apply bind_ok in H; destruct H as (params & Hparams & H).
  apply bind_ok in H; destruct H as (qp & Hqp & H).
  apply bind_ok in H; destruct H as (hs & Hhs & H).
  apply bind_ok in H; destruct H as (his & Hhis & H).
  apply bind_ok in H; destruct H as (hd & Hhd & H).
  apply bind_ok in H; destruct H as (pd & Hpd & H).
  apply bind_ok in H; destruct H as (sz & Hsz & H).
  apply bind_ok in H; destruct H as (tm & Htm & H).
  injection H as <-. simpl.
  repeat split; try assumption.
  - exists params. rewrite Hqs. simpl. split; assumption.
  - exists his. rewrite Hhs. simpl. split; assumption.
Qed.

(** A field the entry lacks takes its default: the method and the URL
    the empty string, the status, the body size and the time zero; a field
    that is there is copied as it is. *)
Theorem record_fields_default entry r :
  record_of entry r ->
  url r = field (field entry "request" (JDict [])) "url" (JStr "") /\
  method r = field (field entry "request" (JDict [])) "method" (JStr "") /\
  status_code r =
    field (field entry "response" (JDict [])) "status" (JInt 0) /\
  response_size r =
    field (field entry "response" (JDict [])) "bodySize" (JInt 0) /\
  time r = field entry "time" (JInt 0).
Proof.
  intros Hrec.
  destruct (record_of_parts Hrec)
    as (request & response & u & pu & rm & rs &
        Hreq & Hresp & Hu & Hpu & Hrm & Hrs & Hr).
  destruct (assemble_fields _ _ _ _ _ _ _ Hr) as (Eu & Em & _ & _ & _ & Es).
  destruct (assemble_rest _ _ _ _ _ _ _ Hr) as (_ & Hsz & Htm & _).
  rewrite (get_field _ _ _ Hreq), (get_field _ _ _ Hresp),
    (get_field _ _ _ Hu), (get_field _ _ _ Hrm), (get_field _ _ _ Hrs),
    (get_field _ _ _ Hsz), (get_field _ _ _ Htm).
  repeat split; assumption.
Qed.

(** The body of a record: [None] when the request has no [postData]; the
    decoded value when the text of the body is JSON; the text itself when
    it is not; and whatever stands for the text when that is no string. *)
Theorem record_post_data entry r :
  record_of entry r ->
  let request := field entry "request" (JDict []) in
  let text := field (field request "postData" JNull) "text" (JStr "") in
  post_data r =
  if has_key "postData" request then
    match text with
    | JStr s =>
        match json_loads s with
        | Some v => v
        | None => text
        end
    | _ => text
    end
  else JNull.
Proof.
  intros Hrec.
  destruct (record_of_parts Hrec)
    as (request & response & u & pu & rm & rs &
        Hreq & Hresp & Hu & Hpu & Hrm & Hrs & Hr).
  destruct (assemble_rest _ _ _ _ _ _ _ Hr) as (Hpd & _).
  rewrite (get_field _ _ _ Hreq). cbv zeta.
  destruct (get_is_dict _ _ _ Hu) as (items & ->).
  unfold extract_post_data in Hpd. simpl in Hpd |- *.
  destruct (assoc "postData" items) as [pd|] eqn:Hassoc; simpl in Hpd.
  - apply bind_ok in Hpd; destruct Hpd as (raw & Hraw & Hpd).
    rewrite (get_field _ _ _ Hraw).
    unfold loads in Hpd.
    destruct raw; try (injection Hpd as <-; reflexivity).
    destruct (json_loads s); injection Hpd as <-; reflexivity.
  - injection Hpd as <-. reflexivity.
Qed.

End RecordFields.

(** ** Headers and query parameters *)

Section Flatten.

Context {lib : PyLib}.

Lemma key_eqb_str a b : key_eqb (JStr a) (JStr b) = String.eqb a b.
Proof. reflexivity. Qed.

Lemma dict_update_lookup d k v n :
  string_keyed d ->
  dict_lookup (dict_update d (JStr k) v) (JStr n) =
  if String.eqb k n then Some v else dict_lookup d (JStr n).
Proof.
  induction 1 as [|[k' v'] rest (a & Ha) _ IH]; simpl.
  - reflexivity.
  - simpl in Ha. subst k'. rewrite !key_eqb_str.
    destruct (String.eqb a k) eqn:Eak; simpl; rewrite !key_eqb_str.
    + apply String.eqb_eq in Eak. subst a.
      destruct (String.eqb k n); reflexivity.
    + rewrite IH. destruct (String.eqb a n) eqn:Ean; [|reflexivity].
      apply String.eqb_eq in Ean. subst n.
      rewrite String.eqb_sym, Eak. reflexivity.
Qed.

Lemma dict_update_keys d k v x :
  In x (map fst (dict_update d k v)) -> In x (map fst d) \/ x = k.
Proof.
  induction d as [|[k' v'] rest IH]; simpl.
  - intros [<-|[]]. auto.
  - destruct (key_eqb k' k); simpl; intros [<-|Hin]; auto.
    destruct (IH Hin); auto.
Qed.

Lemma dict_update_invariant d k v :
  string_keyed d -> NoDup (map fst d) ->
  string_keyed (dict_update d (JStr k) v) /\
  NoDup (map fst (dict_update d (JStr k) v)).
Proof.
  induction 1 as [|[k' v'] rest (a & Ha) Hrest IH]; simpl; intros Hnd.
  - split; repeat constructor; [exists k; reflexivity|intros []].
  - simpl in Ha. subst k'. rewrite key_eqb_str.
    inversion Hnd as [|? ? Hnotin Hnd']; subst.
    destruct (String.eqb a k) eqn:Eak; simpl.
    + split; [constructor; [exists a; reflexivity|exact Hrest]|].
      constructor; assumption.
    + destruct (IH Hnd') as (Hk & Hn). split.
      * constructor; [exists a; reflexivity|exact Hk].
      * constructor; [|exact Hn].
        intros Hin. apply dict_update_keys in Hin.
        destruct Hin as [Hin|Heq]; [exact (Hnotin Hin)|].
        injection Heq as ->. rewrite String.eqb_refl in Eak. discriminate.
Qed.

Lemma flatten_spec items : forall d,
  Forall (fun item => named_item item = true) items ->
  string_keyed d -> NoDup (map fst d) ->
  exists d',
    flatten d items = Ok d' /\
    string_keyed d' /\ NoDup (map fst d') /\
    forall name,
      dict_lookup d' (JStr name) =
      match last_named items name with
      | Some v => Some v
      | None => dict_lookup d (JStr name)
      end.
Proof.
  induction items as [|item rest IH]; intros d Hitems Hk Hn.
  - exists d. simpl. repeat split; assumption.
  - inversion Hitems as [|? ? Hitem Hrest]; subst.
    unfold named_item in Hitem.
    destruct item as [| | | | | |fields]; try discriminate.
    destruct (field (JDict fields) "name" (JStr "")) as [| | | |n| |] eqn:En;
      try discriminate.
    cbn [flatten]. rewrite !get_dict, En. cbn [bind setitem hashable].
    destruct (dict_update_invariant n (field (JDict fields) "value" (JStr ""))
                Hk Hn) as (Hk' & Hn').
    destruct (IH _ Hrest Hk' Hn') as (d' & Hd' & Hk'' & Hn'' & Hlook).
    exists d'. repeat split; try assumption.
    intros name. rewrite Hlook. cbn [last_named].
    destruct (last_named rest name); [reflexivity|].
    rewrite dict_update_lookup by assumption.
    rewrite En. cbn [eq_str]. destruct (String.eqb n name); reflexivity.
Qed.

(** In the headers of a record each name stands once, with the value of
    the last header of that name; the query parameters likewise. The
    header list is taken as HAR has it: a list of objects with string
    names. *)
Theorem record_headers_last_wins entry r :
  record_of entry r ->
  (forall items,
     field (field entry "request" (JDict [])) "headers" (JList []) =
       JList items ->
     Forall (fun item => named_item item = true) items ->
     NoDup (map fst (headers r)) /\
     forall name,
       dict_lookup (headers r) (JStr name) = last_named items name) /\
  (forall items,
     field (field entry "request" (JDict [])) "queryString" (JList []) =
       JList items ->
     Forall (fun item => named_item item = true) items ->
     NoDup (map fst (query_params r)) /\
     forall name,
       dict_lookup (query_params r) (JStr name) = last_named items name).
Proof.
  intros Hrec.
  destruct (record_of_parts Hrec)
    as (request & response & u & pu & rm & rs &
        Hreq & Hresp & Hu & Hpu & Hrm & Hrs & Hr).
  destruct (assemble_rest _ _ _ _ _ _ _ Hr)
    as (_ & _ & _ & (qitems & Hq & Hqf) & (hitems & Hh & Hhf)).
  rewrite (get_field _ _ _ Hreq).
  assert (Hgen : forall key items0 items d,
            (v <- get request key (JList []) ;; iter v) = Ok items0 ->
            flatten [] items0 = Ok d ->
            field request key (JList []) = JList items ->
            Forall (fun item => named_item item = true) items ->
            NoDup (map fst d) /\
            forall name, dict_lookup d (JStr name) = last_named items name).
  { intros key items0 items d Hget Hflat Hfield Hnamed.
    apply bind_ok in Hget; destruct Hget as (v & Hv & Hiter).
    rewrite (get_field _ _ _ Hv) in Hfield. subst v.
    simpl in Hiter. injection Hiter as <-.
    destruct (@flatten_spec items [] Hnamed) as (d' & Hd' & _ & Hn & Hlook);
      [constructor|constructor|].
    rewrite Hflat in Hd'. injection Hd' as <-.
    split; [exact Hn|].
    intros name. rewrite Hlook. destruct (last_named items name); reflexivity. }
  split; intros items Hfield Hnamed.
  - exact (Hgen "headers" _ _ _ Hh Hhf Hfield Hnamed).
  - exact (Hgen "queryString" _ _ _ Hq Hqf Hfield Hnamed).
Qed.

End Flatten.

(** ** Export *)

Section ExportProperties.

Context {lib : PyLib}.

Lemma flat_ep_scalar r r' :
  scalar_fields r = scalar_fields r' -> flat_ep r = flat_ep r'.
Proof.
  unfold scalar_fields, flat_ep. intros H.
  injection H as -> -> -> -> -> -> -> ->. reflexivity.
Qed.

Lemma map_flat_ep_scalar eps : forall eps',
  map scalar_fields eps = map scalar_fields eps' ->
  map flat_ep eps = map flat_ep eps'.
Proof.
  induction eps as [|r rest IH]; intros [|r' rest'] H; try discriminate.
  - reflexivity.
  - pose proof (f_equal (hd (scalar_fields r)) H) as Hr.
    pose proof (f_equal (@tl _) H) as Hrest.
    simpl in Hr, Hrest.
    simpl. rewrite (@flat_ep_scalar r r' Hr), (IH _ Hrest). reflexivity.
Qed.

(** The CSV export is blind to the nested fields: two lists of records
    with the same eight scalar fields, whatever their headers, query
    parameters and bodies, give the same outcome and the same file. *)
Theorem csv_export_ignores_nested_fields fs endpoints endpoints' output_file :
  str_lower (snd (os_path.splitext output_file)) = ".csv" ->
  map scalar_fields endpoints = map scalar_fields endpoints' ->
  export_endpoints fs endpoints output_file =
  export_endpoints fs endpoints' output_file.
Proof.
  intros Hext Heq. unfold export_endpoints. rewrite Hext.
  change (String.eqb ".csv" ".json") with false.
  change (String.eqb ".csv" ".csv") with true. cbv iota.
  pose proof (map_flat_ep_scalar _ _ Heq) as Hflat.
  destruct endpoints as [|r rest], endpoints' as [|r' rest'];
    try discriminate; [reflexivity|].
  rewrite Hflat. reflexivity.
Qed.

Lemma open_w_frame fs name fs1 :
  open_w fs name = Ok fs1 ->
  forall content other,
    fs_write fs1 name content name = Some (Regular content) /\
    (other <> name -> fs_write fs1 name content other = fs other).
Proof.
  intros Hopen content other. split.
  - unfold fs_write at 1. rewrite String.eqb_refl. reflexivity.
  - intros Hne. apply String.eqb_neq in Hne.
    unfold fs_write at 1. rewrite Hne.
    unfold open_w in Hopen.
    destruct (fs name) as [[| | |]|]; try discriminate;
      injection Hopen as <-; unfold fs_write; rewrite Hne; reflexivity.
Qed.

(** An export that returns has written one text file and touched no
    other: the extension of the output file is [.json] or [.csv] in some
    letter case, the file holds text afterwards, and every other path
    names what it named before. With any other extension the call raises
    [ValueError] with the extension in lower case. *)
Theorem export_writes_one_file fs endpoints output_file :
  let file_ext := str_lower (snd (os_path.splitext output_file)) in
  (forall fs',
     export_endpoints fs endpoints output_file = Ok fs' ->
     (file_ext = ".json" \/ file_ext = ".csv") /\
     (exists content, fs' output_file = Some (Regular content)) /\
     forall other, other <> output_file -> fs' other = fs other) /\
  (file_ext <> ".json" -> file_ext <> ".csv" ->
   export_endpoints fs endpoints output_file =
   Raise (ValueError ("Unsupported file format: " ++ file_ext))).
Proof.
  cbv zeta. unfold export_endpoints.
  destruct (String.eqb_spec
              (str_lower (snd (os_path.splitext output_file))) ".json")
    as [Hj|Hj].
  - split; [|intros Hn; contradiction].
    intros fs' H.
    apply bind_ok in H; destruct H as (fs1 & Hopen & H).
    apply bind_ok in H; destruct H as (out & Hout & H).
    injection H as <-.
    split; [left; exact Hj|].
    split.
    + exists out. apply (open_w_frame _ _ Hopen out output_file).
    + intros other. apply (open_w_frame _ _ Hopen out other).
  - destruct (String.eqb_spec
                (str_lower (snd (os_path.splitext output_file))) ".csv")
      as [Hc|Hc].
    + split; [|intros _ Hn; contradiction].
      intros fs' H.
      split; [right; exact Hc|].
      destruct endpoints as [|ep rest];
        apply bind_ok in H; destruct H as (fs1 & Hopen & H);
        injection H as <-;
        (split;
         [eexists; apply (proj1 (open_w_frame _ _ Hopen _ output_file))
         |intros other; apply (proj2 (open_w_frame _ _ Hopen _ other))]).
    + split; [discriminate|reflexivity].
Qed.

End ExportProperties.

(** ** The command line *)

Section CommandLine.

Context {lib : PyLib}.

Variable describe : exn -> string.

(** [--list-domains] comes first: with it the run depends on the capture
    file alone, every other option is ignored, and no file is written even
    when [--output] is given. *)
Theorem list_domains_overrides_options parsed_args fs :
  cli.list_domains parsed_args = true ->
  cli.main describe parsed_args fs =
    cli.main describe
      (cli.mkNamespace (cli.har_file parsed_args) None None None None false
         None true) fs /\
  cli.files (cli.main describe parsed_args fs) = Some fs.
Proof.
  intros Hlist. unfold cli.main. rewrite Hlist. simpl.
  destruct (__init__ fs (cli.har_file parsed_args)) as [parser|e];
    [|split; reflexivity].
  destruct (get_unique_domains parser) as [domains|e]; [|split; reflexivity].
  simpl. destruct (cli.sorted domains); split; reflexivity.
Qed.

(** [--api-only] replaces the filters: with it, and without
    [--list-domains], the domain, method, status and pattern options have
    no effect on the run. *)
Theorem api_only_ignores_filters parsed_args fs :
  cli.list_domains parsed_args = false ->
  cli.api_only parsed_args = true ->
  cli.main describe parsed_args fs =
  cli.main describe
    (cli.mkNamespace (cli.har_file parsed_args) None None None None true
       (cli.output parsed_args) false) fs.
Proof.
  intros Hlist Hapi. unfold cli.main. rewrite Hlist, Hapi. reflexivity.
Qed.

(** Two results of the same call are the same result. *)
Ltac same_call :=
  repeat match goal with
  | H : ?x = _, H' : ?x = _ |- _ =>
      rewrite H in H';
      first [discriminate H' | injection H' as H'; subst | clear H']
  end.

Ltac no_other_raise :=
  let Hr := fresh "Hr" in
  intros ? Hr; destruct Hr as [| | | | |? ? ? ? ? [?|?]];
  same_call; congruence.


(** *** The list of domains *)

Lemma insert_sorted_perm x l : Permutation (x :: l) (cli.insert_sorted x l).
Proof.
  induction l as [|y rest IH]; simpl; [reflexivity|].
  destruct (String.leb x y); [reflexivity|].
  rewrite perm_swap. constructor. exact IH.
Qed.

Lemma sort_strings_perm l : Permutation l (cli.sort_strings l).
Proof.
  induction l as [|x rest IH]; simpl; [constructor|].
  rewrite <- insert_sorted_perm. constructor. exact IH.
Qed.

Lemma insert_sorted_hd x y l :
  cli.string_le y x -> HdRel cli.string_le y l ->
  HdRel cli.string_le y (cli.insert_sorted x l).
Proof.
  intros Hyx Hhd. destruct l as [|z rest]; simpl.
  - constructor. exact Hyx.
  - destruct (String.leb x z); constructor; [exact Hyx|].
    inversion Hhd; assumption.
Qed.

Lemma insert_sorted_sorted x l :
  Sorted cli.string_le l -> Sorted cli.string_le (cli.insert_sorted x l).
Proof.
  induction 1 as [|y rest Hs IH Hhd]; simpl.
  - repeat constructor.
  - destruct (String.leb x y) eqn:Hxy.
    + constructor; [constructor; assumption|constructor; exact Hxy].
    + constructor; [exact IH|].
      apply insert_sorted_hd; [|exact Hhd].
      destruct (String.leb_total x y) as [H|H]; [congruence|exact H].
Qed.

Lemma sort_strings_sorted l : Sorted cli.string_le (cli.sort_strings l).
Proof.
  induction l as [|x rest IH]; simpl; [constructor|].
  apply insert_sorted_sorted. exact IH.
Qed.

Lemma all_str_map names : cli.all_str (map Str names) = Some names.
Proof.
  induction names as [|n rest IH]; simpl; [reflexivity|].
  rewrite IH. reflexivity.
Qed.


Lemma all_str_none l b : In (Bytes b) l -> cli.all_str l = None.
Proof.
  induction l as [|[s|b'] rest IH]; simpl; intros Hin.
  - contradiction.
  - destruct Hin as [Heq|Hin]; [discriminate|].
    rewrite (IH Hin). reflexivity.
  - reflexivity.
Qed.

Lemma all_bytes_none l s : In (Str s) l -> cli.all_bytes l = None.
Proof.
  induction l as [|[s'|b] rest IH]; simpl; intros Hin.
  - contradiction.
  - reflexivity.
  - destruct Hin as [Heq|Hin]; [discriminate|].
    rewrite (IH Hin). reflexivity.
Qed.

(** A capture that holds a URL that is a string and one that is [null],
    [0], [false] or an empty container has a [str] and a [bytes] domain,
    which cannot be ordered: [--list-domains] prints the heading and fails
    with [TypeError]. *)
Theorem list_domains_mixed_fails parsed_args fs parser domains s b :
  cli.list_domains parsed_args = true ->
  __init__ fs (cli.har_file parsed_args) = Ok parser ->
  get_unique_domains parser = Ok domains ->
  In (Str s) domains ->
  In (Bytes b) domains ->
  cli.main describe parsed_args fs =
  cli.mkOutcome 1 ["Unique domains found:"]
    ["Error: " ++ describe TypeError] (Some fs).
Proof.
  intros Hlist Hinit Hdomains Hs Hb.
  unfold cli.main. rewrite Hinit, Hlist, Hdomains. simpl.
  unfold cli.sorted. rewrite (all_str_none _ _ Hb), (all_bytes_none _ _ Hs).
  reflexivity.
Qed.

End CommandLine.

(** ** The further properties on the samples *)

Section Samples.

#[local] Existing Instance mini.lib.

Lemma filters_select_from_unfiltered_witness :
  get_endpoints fixture.parser (Some "example.com") (Some "POST") (Some 200)
    (Some "^/log") =
  Ok (filter (record_passes (Some "example.com") (Some "POST") (Some 200)
                            (Some "^/log"))
             [fixture.users_record; fixture.login_record]).
Proof.
  destruct (@filters_select_from_unfiltered _ fixture.parser
              (Some "example.com") (Some "POST") (Some 200) (Some "^/log")
              [fixture.users_record; fixture.login_record]) as [_ H].
  - vm_compute. reflexivity.
  - apply H. repeat constructor.
Defined.

Lemma unique_domains_of_endpoints_witness :
  get_unique_domains fixture.parser =
  Ok (domains_of [fixture.users_record; fixture.login_record]).
Proof.
  apply (@unique_domains_of_endpoints _ fixture.parser).
  vm_compute. reflexivity.
Defined.

Lemma invalid_pattern_raises_when_reached_witness :
  get_endpoints fixture.parser (Some "example.com") None None (Some "(") =
  Raise re_error /\
  get_endpoints fixture.parser (Some "other.example") None None (Some "(") =
  Ok [].
Proof.
  split.
  - rewrite (@invalid_pattern_raises_when_reached _ fixture.parser
               (Some "example.com") None None "("
               [fixture.users_record; fixture.login_record]);
      [reflexivity|discriminate|reflexivity|vm_compute; reflexivity].
  - rewrite (@invalid_pattern_raises_when_reached _ fixture.parser
               (Some "other.example") None None "("
               [fixture.users_record; fixture.login_record]);
      [reflexivity|discriminate|reflexivity|vm_compute; reflexivity].
Defined.

Lemma first_failing_entry_aborts_witness :
  get_endpoints
    (mkHarParser "test.har"
       (fixture.document [fixture.users_entry; fixture.malformed_entry]))
    (Some "api.example.com") None None None =
  Raise (ValueError "Invalid IPv6 URL").
Proof.
  apply (@first_failing_entry_aborts _
           (mkHarParser "test.har"
              (fixture.document [fixture.users_entry; fixture.malformed_entry]))
           (Some "api.example.com") None None None
           (ValueError "Invalid IPv6 URL")).
  - reflexivity.
  - exists [fixture.users_entry], fixture.malformed_entry, [].
    split; [reflexivity|]. split; [|reflexivity].
    repeat constructor.
Defined.

Lemma record_fields_default_witness :
  method sample.repeated_record = JStr "" /\
  status_code sample.repeated_record = JInt 0 /\
  response_size sample.repeated_record = JInt 0 /\
  time sample.repeated_record = JInt 0.
Proof.
  destruct (@record_fields_default _ sample.repeated_entry
              sample.repeated_record) as (_ & Hm & Hs & Hz & Ht).
  - vm_compute. reflexivity.
  - rewrite Hm, Hs, Hz, Ht. repeat split.
Defined.

Lemma record_post_data_witness :
  post_data sample.repeated_record = JStr "x=1&x=2" /\
  post_data fixture.users_record = JNull.
Proof.
  split.
  - rewrite (@record_post_data _ sample.repeated_entry sample.repeated_record);
      vm_compute; reflexivity.
  - rewrite (@record_post_data _ fixture.users_entry fixture.users_record);
      vm_compute; reflexivity.
Defined.

Lemma record_headers_last_wins_witness :
  dict_lookup (headers sample.repeated_record) (JStr "Accept") =
    Some (JStr "*/*") /\
  dict_lookup (query_params sample.repeated_record) (JStr "x") =
    Some (JStr "2").
Proof.
  destruct (@record_headers_last_wins _ sample.repeated_entry
              sample.repeated_record) as [Hh Hq].
  - vm_compute. reflexivity.
  - split.
    + destruct (Hh [JDict [("name", JStr "Accept"); ("value", JStr "text/html")];
                    JDict [("name", JStr "Host"); ("value", JStr "example.com")];
                    JDict [("name", JStr "Accept"); ("value", JStr "*/*")]])
        as [_ H]; [reflexivity|repeat constructor|].
      rewrite H. reflexivity.
    + destruct (Hq [JDict [("name", JStr "x"); ("value", JStr "1")];
                    JDict [("name", JStr "x"); ("value", JStr "2")]])
        as [_ H]; [reflexivity|repeat constructor|].
      rewrite H. reflexivity.
Defined.

Lemma csv_export_ignores_nested_fields_witness :
  export_endpoints fixture.empty [fixture.users_record] "out.csv" =
  export_endpoints fixture.empty [sample.bare_users_record] "out.csv".
Proof.
  apply csv_export_ignores_nested_fields; reflexivity.
Defined.

Lemma export_writes_one_file_witness :
  (exists fs',
     export_endpoints sample.disk [fixture.users_record] "out.csv" = Ok fs' /\
     fs' "capture.har" = sample.disk "capture.har") /\
  export_endpoints sample.disk [fixture.users_record] "out.txt" =
  Raise (ValueError "Unsupported file format: .txt").
Proof.
  split.
  - destruct (@export_writes_one_file _ sample.disk [fixture.users_record]
                "out.csv") as [H _].
    destruct (export_endpoints sample.disk [fixture.users_record] "out.csv")
      as [fs'|e] eqn:Hexp.
    + exists fs'. split; [reflexivity|].
      destruct (H fs' eq_refl) as (_ & _ & Hframe).
      apply Hframe. discriminate.
    + vm_compute in Hexp. discriminate.
  - apply (proj2 (@export_writes_one_file _ sample.disk [fixture.users_record]
                    "out.txt")); discriminate.
Defined.

Lemma list_domains_overrides_options_witness :
  cli.main sample.describe sample.listing sample.disk =
    cli.main sample.describe
      (cli.mkNamespace "capture.har" None None None None false None true)
      sample.disk /\
  cli.files (cli.main sample.describe sample.listing sample.disk) =
    Some sample.disk.
Proof.
  apply (@list_domains_overrides_options _ sample.describe sample.listing
           sample.disk).
  reflexivity.
Defined.

Lemma api_only_ignores_filters_witness :
  cli.main sample.describe sample.api_with_filters sample.disk =
  cli.main sample.describe
    (cli.mkNamespace "capture.har" None None None None true (Some "out.csv")
       false) sample.disk.
Proof.
  apply (@api_only_ignores_filters _ sample.describe sample.api_with_filters
           sample.disk); reflexivity.
Defined.


Lemma list_domains_mixed_fails_witness :
  cli.main sample.describe sample.listing sample.mixed_disk =
  cli.mkOutcome 1 ["Unique domains found:"] ["Error: error"]
    (Some sample.mixed_disk).
Proof.
  destruct (__init__ sample.mixed_disk "capture.har") as [parser|e] eqn:Hinit;
    [|vm_compute in Hinit; discriminate].
  apply (@list_domains_mixed_fails _ sample.describe sample.listing
           sample.mixed_disk parser [Str "a.example.com"; Bytes ""]
           "a.example.com" "").
  - reflexivity.
  - exact Hinit.
  - vm_compute in Hinit. injection Hinit as <-. vm_compute. reflexivity.
  - left. reflexivity.
  - right. left. reflexivity.
Defined.


(** The runs themselves. *)
Example main_lists_domains :
  let run := cli.main sample.describe sample.listing sample.disk in
  (cli.exit_code run, cli.stdout run, cli.stderr run) =
  (0, ["Unique domains found:"; "  - a.example.com"; "  - b.example.com"], []).
Proof. vm_compute. reflexivity. Qed.

Example main_api_only_exports :
  let run := cli.main sample.describe sample.api_with_filters sample.disk in
  (cli.exit_code run, cli.stdout run, cli.stderr run) =
  (0, ["Exported 1 endpoints to out.csv"], []).
Proof. vm_compute. reflexivity. Qed.

Example main_missing_capture :
  let run := cli.main sample.describe sample.listing fixture.empty in
  (cli.exit_code run, cli.stdout run, cli.stderr run) =
  (1, [], ["Error: HAR file not found: capture.har"]).
Proof. vm_compute. reflexivity. Qed.

End Samples.
